(** * Shape-level and data-flow verification of the disruption-prediction
      model definitions (src/models/model.py and src/model.py).

    The Python sources compose layers of a tensor framework.  Numerical
    values are floating point and are not modelled; what is modelled is
    - the shape of every tensor (a [torch.Size], here a list of integers),
      together with the failures the framework raises on bad shapes;
    - the contents of a tensor where the code only moves elements around
      (the strided slicing of [SlowFastEncoder.split_slow_fast]);
    - the module tree and its parameters for weight initialisation.
    Devices ([.to(device)]) and the float hyper-parameters (dropout rate,
    activation slope) have no bearing on any of these and are left out. *)

From Stdlib Require Import ZArith List Lia Bool Arith.
Import ListNotations.
Open Scope Z_scope.

(** ** Failures and the error monad *)

(** The operations of the tensor framework (and of the built-in list type)
    that the models call.  A failure is always the failure of one of
    them. *)
Inductive torch_op :=
| OpView | OpSlice | OpSize | OpZeros | OpConv3d | OpMaxPool3d
| OpAdaptiveAvgPool3d | OpLinear | OpBatchNorm1d | OpCat | OpFlatten
| OpIntTensor | OpGetItem | OpInit | OpModule.

(** Python exception classes raised by the framework. *)
Inductive error :=
| RuntimeError (op : torch_op)
| ValueError (op : torch_op)
| IndexError (op : torch_op)
| AttributeError (op : torch_op).

Inductive result (A : Type) :=
| Ok (a : A)
| Err (e : error).
Arguments Ok {A} a.
Arguments Err {A} e.

Definition bind {A B} (r : result A) (k : A -> result B) : result B :=
  match r with
  | Ok a => k a
  | Err e => Err e
  end.

Declare Scope result_scope.
Delimit Scope result_scope with result.
Notation "x <- e1 ;; e2" := (bind e1 (fun x => e2))
  (at level 61, e1 at next level, right associativity) : result_scope.
Notation "' pat <- e1 ;; e2" := (bind e1 (fun x => match x with pat => e2 end))
  (at level 61, pat pattern, e1 at next level, right associativity) : result_scope.
Open Scope result_scope.

Definition is_ok {A} (r : result A) : bool :=
  match r with Ok _ => true | Err _ => false end.

(** A tensor shape, [x.size()]. *)
Definition shape := list Z.

(** ** The tensor framework on shapes *)
Module Torch.

(** [x.numel()] *)
Definition numel (s : shape) : Z := fold_right Z.mul 1 s.

(** [x.size(i)] for a non-negative [i]. *)
Definition size (s : shape) (i : nat) : result Z :=
  match nth_error s i with
  | Some d => Ok d
  | None => Err (IndexError OpSize)
  end.

(** [x.size()[-1]] *)
Definition size_last (s : shape) : result Z :=
  match rev s with
  | d :: _ => Ok d
  | [] => Err (IndexError OpSize)
  end.

(** [torch.zeros(size)]: a negative dimension is refused. *)
Definition zeros (s : shape) : result shape :=
  if forallb (fun d => 0 <=? d) s then Ok s else Err (RuntimeError OpZeros).

(** [x.view] with the sizes [req], which may hold one [-1].  This is the
    framework's size inference: the product of the given sizes must divide the number
    of elements; with no element and a zero product the inferred size is
    ambiguous and the call fails. *)
Definition view (s : shape) (req : list Z) : result shape :=
  let n := numel s in
  let infer := existsb (Z.eqb (-1)) req in
  let known := filter (fun d => negb (d =? -1)) req in
  let newsize := numel known in
  if negb (forallb (fun d => -1 <=? d) req) then Err (RuntimeError OpView)
  else if (1 <? Z.of_nat (length req) - Z.of_nat (length known))
  then Err (RuntimeError OpView)
  else if (n =? newsize) || (infer && (0 <? newsize) && (n mod newsize =? 0))
  then
    if infer then
      if newsize =? 0 then Err (RuntimeError OpView)
      else Ok (map (fun d => if d =? -1 then n / newsize else d) req)
    else Ok req
  else Err (RuntimeError OpView).

(** Output length of a convolution along one axis. *)
Definition conv_out (n k s p d : Z) : result Z :=
  if (0 <? s) && (0 <? k) && (0 <? d) && (0 <=? p) && (d * (k - 1) + 1 <=? n + 2 * p)
  then Ok ((n + 2 * p - d * (k - 1) - 1) / s + 1)
  else Err (RuntimeError OpConv3d).

(** Output length of a max pooling (dilation 1, floor mode) along one
    axis; an output shorter than one element is refused. *)
Definition pool_out (n k s p : Z) : result Z :=
  if (0 <? s) && (0 <? k) && (0 <=? p) && (2 * p <=? k)
  then
    let o := (n + 2 * p - (k - 1) - 1) / s + 1 in
    if 1 <=? o then Ok o else Err (RuntimeError OpMaxPool3d)
  else Err (RuntimeError OpMaxPool3d).

(** [nn.MaxPool3d(kernel_size, stride, padding)] on a batched input. *)
Definition MaxPool3d (k s p : Z * Z * Z) (x : shape) : result shape :=
  let '(kt, kh, kw) := k in
  let '(st, sh, sw) := s in
  let '(pt, ph, pw) := p in
  match x with
  | [n; c; t; h; w] =>
      t' <- pool_out t kt st pt ;;
      h' <- pool_out h kh sh ph ;;
      w' <- pool_out w kw sw pw ;;
      Ok [n; c; t'; h'; w']
  | _ => Err (RuntimeError OpMaxPool3d)
  end.

(** [nn.AdaptiveAvgPool3d(1)] on a batched input: the non-batch
    dimensions must not be empty. *)
Definition AdaptiveAvgPool3d_1 (x : shape) : result shape :=
  match x with
  | [n; c; t; h; w] =>
      if (0 <? c) && (0 <? t) && (0 <? h) && (0 <? w)
      then Ok [n; c; 1; 1; 1]
      else Err (RuntimeError OpAdaptiveAvgPool3d)
  | _ => Err (RuntimeError OpAdaptiveAvgPool3d)
  end.

(** [nn.Linear(in_features, out_features)] acts on the last dimension. *)
Definition Linear (in_features out_features : Z) (x : shape) : result shape :=
  match rev x with
  | d :: r =>
      if d =? in_features then Ok (rev (out_features :: r))
      else Err (RuntimeError OpLinear)
  | [] => Err (RuntimeError OpLinear)
  end.

(** [nn.BatchNorm1d(num_features)]: a 2-D or 3-D input whose channel
    dimension is [num_features]; in training mode a single value per
    channel is refused. *)
Definition BatchNorm1d (num_features : Z) (training : bool) (x : shape)
  : result shape :=
  match x with
  | n :: c :: r =>
      if negb (Nat.leb (length r) 1) then Err (ValueError OpBatchNorm1d)
      else if training && (n * numel r =? 1) then Err (ValueError OpBatchNorm1d)
      else if negb (c =? num_features) then Err (RuntimeError OpBatchNorm1d)
      else Ok x
  | _ => Err (ValueError OpBatchNorm1d)
  end.

(** Element-wise layers: [nn.ReLU], [nn.LeakyReLU], [nn.Dropout]. *)
Definition elementwise (x : shape) : result shape := Ok x.

(** [torch.cat([a, b], dim = 1)]: same rank, at least two dimensions,
    all dimensions but the second equal.  (The framework's exemption for
    empty 1-D tensors is left out: no network output here has rank 1.) *)
Definition cat1 (a b : shape) : result shape :=
  match a, b with
  | n :: c :: r, n' :: c' :: r' =>
      if (n =? n') && (if list_eq_dec Z.eq_dec r r' then true else false)
      then Ok (n :: (c + c') :: r)
      else Err (RuntimeError OpCat)
  | _, _ => Err (RuntimeError OpCat)
  end.

(** [torch.flatten(x, start_dim = 1)] *)
Definition flatten1 (x : shape) : result shape :=
  match x with
  | n :: d :: r => Ok [n; numel (d :: r)]
  | _ => Err (IndexError OpFlatten)
  end.

(** Length of [range(0, n, step)] for a positive [step]. *)
Definition strided_len (n step : Z) : Z := (n + step - 1) / step.

(** [x[:, :, ::step, :, :]] on shapes: five indices need five dimensions,
    and the step must be positive. *)
Definition slice_time (step : Z) (x : shape) : result shape :=
  match x with
  | n :: c :: t :: h :: w :: r =>
      if 0 <? step then Ok (n :: c :: strided_len t step :: h :: w :: r)
      else Err (ValueError OpSlice)
  | _ => Err (IndexError OpSlice)
  end.

(** [nn.Conv2d(in_channels, out_channels, kernel_size)] with stride 1
    and no padding, on a batched input. *)
Definition Conv2d (in_channels out_channels k : Z) (x : shape) : result shape :=
  match x with
  | [n; c; h; w] =>
      if c =? in_channels then
        h' <- conv_out h k 1 0 1 ;;
        w' <- conv_out w k 1 0 1 ;;
        Ok [n; out_channels; h'; w']
      else Err (RuntimeError OpConv3d)
  | _ => Err (RuntimeError OpConv3d)
  end.

(** [F.max_pool2d(x, k)]: the stride defaults to the kernel size. *)
Definition max_pool2d (k : Z) (x : shape) : result shape :=
  match x with
  | [n; c; h; w] =>
      h' <- pool_out h k k 0 ;;
      w' <- pool_out w k k 0 ;;
      Ok [n; c; h'; w']
  | _ => Err (RuntimeError OpMaxPool3d)
  end.

(** [F.log_softmax(x, dim = 1)] *)
Definition log_softmax1 (x : shape) : result shape :=
  match x with
  | _ :: _ :: _ => Ok x
  | _ => Err (IndexError OpSize)
  end.

End Torch.

(** ** Layers of the repository that the model files import *)

(** Modelled from the spec: the layer classes of src/models/layer.py,
    src/models/resnet.py, src/models/slowfast.py, src/models/transformer.py
    and src/models/unet3d.py are not part of the sources at hand.  The spec
    describes tensors of shape batch x channel x time x height x width
    flowing through fixed layer graphs: a layer acts on every batch item
    alike, so it is a map on the per-item dimensions, and the batch
    dimension passes through. *)
Definition batchwise (per_item : list Z -> result (list Z)) (x : shape)
  : result shape :=
  match x with
  | n :: item => r <- per_item item ;; Ok (n :: r)
  | [] => Err (RuntimeError OpModule)
  end.

(** Modelled from the spec: a convolutional layer constructed with
    [in_channels] and [out_channels] takes channel x time x height x width
    items with [in_channels] channels to items with [out_channels]
    channels; [dims] is what it does to time x height x width. *)
Definition conv_item (in_channels out_channels : Z)
  (dims : list Z -> result (list Z)) (item : list Z) : result (list Z) :=
  match item with
  | [c; t; h; w] =>
      if c =? in_channels then
        r <- dims [t; h; w] ;; Ok (out_channels :: r)
      else Err (RuntimeError OpConv3d)
  | _ => Err (RuntimeError OpConv3d)
  end.

(** Arguments of [Conv3dResBlock(in_channels, out_channels, kernel_size,
    stride, dilation, padding, bias, alpha, downsample)]; the slope [alpha]
    of the activation is a float and has no bearing on shapes. *)
Record Conv3dResBlock := {
  crb_in_channels : Z;
  crb_out_channels : Z;
  crb_kernel_size : Z;
  crb_stride : Z;
  crb_dilation : Z;
  crb_padding : Z;
  crb_bias : bool;
  crb_downsample : bool
}.

(** Modelled from the spec: [Conv3dResBlock.forward] (src/models/layer.py,
    absent).  The spec counts 512 * 1 * 6 * 6 elements per batch item after
    the four stride-2 blocks and three poolings on an 8 x 112 x 112 input:
    each block is a 3-D convolution with the block's kernel size, stride,
    padding and dilation on time, height and width. *)
Definition Conv3dResBlock_dims (b : Conv3dResBlock) (thw : list Z)
  : result (list Z) :=
  match thw with
  | [t; h; w] =>
      let f n := Torch.conv_out n (crb_kernel_size b) (crb_stride b)
                   (crb_padding b) (crb_dilation b) in
      t' <- f t ;; h' <- f h ;; w' <- f w ;; Ok [t'; h'; w']
  | _ => Err (RuntimeError OpConv3d)
  end.

Definition Conv3dResBlock_forward (b : Conv3dResBlock) (x : shape)
  : result shape :=
  batchwise (conv_item (crb_in_channels b) (crb_out_channels b)
               (Conv3dResBlock_dims b)) x.

(** ** VideoSpatioEncoder *)

Record VideoSpatioEncoder := {
  vse_input_shape : Z * Z * Z * Z;
  vse_seq_len : Z;
  vse_conv_block1 : Conv3dResBlock;
  vse_pooling_block1 : shape -> result shape;
  vse_conv_block2 : Conv3dResBlock;
  vse_pooling_block2 : shape -> result shape;
  vse_conv_block3 : Conv3dResBlock;
  vse_pooling_block3 : shape -> result shape;
  vse_conv_block4 : Conv3dResBlock
}.

Definition default_input_shape : Z * Z * Z * Z := (3, 8, 112, 112).

(** [(n, *input_shape)] *)
Definition with_batch (n : Z) (input_shape : Z * Z * Z * Z) : shape :=
  let '(c, t, h, w) := input_shape in [n; c; t; h; w].

(** [VideoSpatioEncoder.__init__(input_shape, alpha)] *)
Definition VideoSpatioEncoder_init (input_shape : Z * Z * Z * Z)
  : VideoSpatioEncoder :=
  let '(_, t, _, _) := input_shape in
  {| vse_input_shape := input_shape;
     vse_seq_len := t;
     vse_conv_block1 := Build_Conv3dResBlock 3 64 3 2 1 1 false true;
     vse_pooling_block1 := Torch.MaxPool3d (1, 3, 3) (1, 1, 1) (0, 0, 0);
     vse_conv_block2 := Build_Conv3dResBlock 64 128 3 2 1 1 false true;
     vse_pooling_block2 := Torch.MaxPool3d (1, 3, 3) (1, 1, 1) (0, 0, 0);
     vse_conv_block3 := Build_Conv3dResBlock 128 256 3 2 1 1 false true;
     vse_pooling_block3 := Torch.MaxPool3d (1, 3, 3) (1, 1, 1) (0, 0, 0);
     vse_conv_block4 := Build_Conv3dResBlock 256 512 3 2 1 1 false true |}.

(** The convolutional part of [VideoSpatioEncoder.forward], up to the
    final reshape. *)
Definition VideoSpatioEncoder_features (self : VideoSpatioEncoder) (x : shape)
  : result shape :=
  x <- Conv3dResBlock_forward (vse_conv_block1 self) x ;;
  x <- vse_pooling_block1 self x ;;
  x <- Conv3dResBlock_forward (vse_conv_block2 self) x ;;
  x <- vse_pooling_block2 self x ;;
  x <- Conv3dResBlock_forward (vse_conv_block3 self) x ;;
  x <- vse_pooling_block3 self x ;;
  Conv3dResBlock_forward (vse_conv_block4 self) x.

(** [VideoSpatioEncoder.forward] *)
Definition VideoSpatioEncoder_forward (self : VideoSpatioEncoder) (x : shape)
  : result shape :=
  x <- VideoSpatioEncoder_features self x ;;
  x0 <- Torch.size x 0 ;;
  Torch.view x [x0; vse_seq_len self; -1].

(** [VideoSpatioEncoder.get_output_size] *)
Definition VideoSpatioEncoder_get_output_size (self : VideoSpatioEncoder)
  : result shape :=
  sample <- Torch.zeros (with_batch 1 (vse_input_shape self)) ;;
  VideoSpatioEncoder_forward self sample.


(** ** Containers and layers shared by the models *)

(** The layers that occur in the [nn.Sequential] heads. *)
Inductive seq_layer :=
| SLinear (in_features out_features : Z)
| SBatchNorm1d (num_features : Z)
| SLeakyReLU
| SReLU.

Definition seq_layer_forward (training : bool) (l : seq_layer) (x : shape)
  : result shape :=
  match l with
  | SLinear i o => Torch.Linear i o x
  | SBatchNorm1d n => Torch.BatchNorm1d n training x
  | SLeakyReLU => Torch.elementwise x
  | SReLU => Torch.elementwise x
  end.

(** [nn.Sequential.forward]: the layers in order. *)
Fixpoint Sequential_forward (training : bool) (ls : list seq_layer) (x : shape)
  : result shape :=
  match ls with
  | [] => Ok x
  | l :: ls' =>
      y <- seq_layer_forward training l x ;;
      Sequential_forward training ls' y
  end.

(** [in_features] of the first layer of a head. *)
Definition head_in_features (ls : list seq_layer) : option Z :=
  match ls with
  | SLinear i _ :: _ => Some i
  | _ => None
  end.

(** A convolutional layer of the repository, as far as shapes go. *)
Record Layer := {
  layer_in : Z;
  layer_out : Z;
  layer_dims : list Z -> result (list Z)
}.

Definition Layer_forward (l : Layer) (x : shape) : result shape :=
  batchwise (conv_item (layer_in l) (layer_out l) (layer_dims l)) x.

(** [lst[i]] on a Python list. *)
Definition getitem (l : list Z) (i : nat) : result Z :=
  match nth_error l i with
  | Some v => Ok v
  | None => Err (IndexError OpGetItem)
  end.

(** ** Module trees and their parameters *)

(** What [isinstance(m, nn.Conv3d)] and [isinstance(m, nn.BatchNorm3d)]
    tell apart. *)
Inductive module_class := Conv3d | BatchNorm3d | OtherModule.

Set Warnings "-register-all".

Section Parameters.

(** Scalars of a parameter tensor with the two constants the
    initialisation writes, and the state of the random generator. *)
Variable R : Type.
Variables r0 r1 : R.
Variable G : Type.

(** The data of a parameter tensor, flattened. *)
Definition param := list R.

(** A module with its [weight] and [bias] ([None] when the module has
    none) and its child modules. *)
Inductive nnmodule :=
| NNModule (cls : module_class) (weight bias : option param)
    (children : list nnmodule).

Definition module_cls (m : nnmodule) : module_class :=
  match m with NNModule c _ _ _ => c end.
Definition module_weight (m : nnmodule) : option param :=
  match m with NNModule _ w _ _ => w end.
Definition module_bias (m : nnmodule) : option param :=
  match m with NNModule _ _ b _ => b end.

(** [m.modules()]: the module itself, then its descendants. *)
Fixpoint modules (m : nnmodule) : list nnmodule :=
  match m with
  | NNModule _ _ _ ch => m :: flat_map modules ch
  end.

(** [t.fill_(c)] *)
Definition fill_ (c : R) (t : param) : param := map (fun _ => c) t.

(** [nn.init.kaiming_normal_]: draws the new data from the generator. *)
Variable kaiming_normal_ : G -> param -> param * G.

(** One iteration of the loop of [__init_weight] on the module [m]. *)
Definition init_weight_step (g : G) (c : module_class)
  (w b : option param) : result (option param * option param * G) :=
  match c with
  | Conv3d =>
      match w with
      | Some w0 => let '(w1, g1) := kaiming_normal_ g w0 in Ok (Some w1, b, g1)
      | None => Err (AttributeError OpInit)
      end
  | BatchNorm3d =>
      match w, b with
      | Some w0, Some b0 => Ok (Some (fill_ r1 w0), Some (fill_ r0 b0), g)
      | _, _ => Err (AttributeError OpInit)
      end
  | OtherModule => Ok (w, b, g)
  end.

(** The loop [for m in self.modules()] of [__init_weight], on the
    subtree [m]. *)
Fixpoint init_weight_module (g : G) (m : nnmodule) : result (nnmodule * G) :=
  match m with
  | NNModule c w b ch =>
      '(w', b', g1) <- init_weight_step g c w b ;;
      '(ch', g2) <-
        (fix go (g : G) (l : list nnmodule) : result (list nnmodule * G) :=
           match l with
           | [] => Ok ([], g)
           | x :: r =>
               '(x', g') <- init_weight_module g x ;;
               '(r', g'') <- go g' r ;;
               Ok (x' :: r', g'')
           end) g1 ch ;;
      Ok (NNModule c w' b' ch', g2)
  end.

Definition init_weight_children :=
  fix go (g : G) (l : list nnmodule) : result (list nnmodule * G) :=
    match l with
    | [] => Ok ([], g)
    | x :: r =>
        '(x', g') <- init_weight_module g x ;;
        '(r', g'') <- go g' r ;;
        Ok (x' :: r', g'')
    end.

End Parameters.

Arguments NNModule {R} cls weight bias children.
Arguments module_cls {R} m.
Arguments module_weight {R} m.
Arguments module_bias {R} m.
Arguments modules {R} m.
Arguments fill_ {R} c t.

(** ** Tensor contents *)

(** A tensor of rank [n] with entries in [A], as nested lists. *)
Fixpoint tensor (A : Type) (n : nat) : Type :=
  match n with
  | O => A
  | S m => list (tensor A m)
  end.

(** [l[skip::step]] for a positive [step]: the entries at positions
    [skip], [skip + step], [skip + 2 * step], ... *)
Fixpoint strided {A : Type} (step skip : nat) (l : list A) : list A :=
  match l with
  | [] => []
  | x :: r =>
      match skip with
      | O => x :: strided step (step - 1) r
      | S k => strided step k r
      end
  end.

(** [x[:, :, ::step, :, :]] on a tensor of rank 5; the framework refuses
    a step that is not positive. *)
Definition tensor5_slice_time {A : Type} (step : Z) (x : tensor A 5)
  : result (tensor A 5) :=
  if 0 <? step
  then Ok (map (map (strided (Z.to_nat step) 0)) (x : list (list (list (tensor A 2)))))
  else Err (ValueError OpSlice).

(** [x[n, c, t]]: the frame at time [t] of channel [c] of batch item [n]. *)
Definition tensor5_frame {A : Type} (x : tensor A 5) (n c t : nat)
  : option (tensor A 2) :=
  match nth_error (x : list (list (list (tensor A 2)))) n with
  | Some b =>
      match nth_error b c with
      | Some frames => nth_error frames t
      | None => None
      end
  | None => None
  end.

(** The number of frames of channel [c] of batch item [n]. *)
Definition tensor5_frames {A : Type} (x : tensor A 5) (n c : nat) : option nat :=
  match nth_error (x : list (list (list (tensor A 2)))) n with
  | Some b =>
      match nth_error b c with
      | Some frames => Some (length frames)
      | None => None
      end
  | None => None
  end.

(** [x.size()] of a tensor given by nested lists, read along the first
    entries; below an empty dimension the sizes read 0. *)
Fixpoint tensor_size {A : Type} (n : nat) : tensor A n -> shape :=
  match n with
  | O => fun _ => []
  | S m => fun l =>
      Z.of_nat (length l) ::
      match l with
      | x :: _ => tensor_size m x
      | [] => repeat 0 m
      end
  end.

(** ** An instance of the imported layers

    The layers that the model files import are left open below.  To run
    the models on concrete inputs, this is one choice for them: every
    convolutional layer is a 3-D convolution per axis, the residual layers
    halve the resolution when they downsample, and the remaining networks
    return fixed per-item shapes. *)
Module Instance.

Definition conv3 (k s p : Z * Z * Z) (d : Z) (thw : list Z)
  : result (list Z) :=
  let '(kt, kh, kw) := k in
  let '(st, sh, sw) := s in
  let '(pt, ph, pw) := p in
  match thw with
  | [t; h; w] =>
      t' <- Torch.conv_out t kt st pt d ;;
      h' <- Torch.conv_out h kh sh ph d ;;
      w' <- Torch.conv_out w kw sw pw d ;;
      Ok [t'; h'; w']
  | _ => Err (RuntimeError OpConv3d)
  end.

Definition SpatioTemporalConv_dims (k s p : Z * Z * Z) (d : Z)
  (is_first : bool) : list Z -> result (list Z) :=
  conv3 k s p d.

Definition SpatioTemporalResLayer_dims (k d layer_size : Z)
  (downsample : bool) : list Z -> result (list Z) :=
  let s := if downsample then 2 else 1 in
  conv3 (k, k, k) (s, s, s) (k / 2, k / 2, k / 2) d.

(** A convolution followed by a batch normalisation, with some
    parameter values. *)
Definition conv_bn : nnmodule Z :=
  NNModule OtherModule None None
    [ NNModule Conv3d (Some [5; 5; 5]) None [];
      NNModule BatchNorm3d (Some [7; 7]) (Some [3; 3]) [] ].

Definition SpatioTemporalConv_modules (in_channels out_channels : Z)
  : nnmodule Z := conv_bn.

Definition SpatioTemporalResLayer_modules (in_channels out_channels
  layer_size : Z) (downsample : bool) : nnmodule Z :=
  NNModule OtherModule None None [conv_bn; conv_bn].

Definition Sequential_modules (ls : list seq_layer) : nnmodule Z :=
  NNModule OtherModule None None
    (map (fun _ => NNModule OtherModule (Some [9]) (Some [9]) []) ls).

(** A generator that counts its draws. *)
Definition kaiming_normal_ (g : nat) (w : list Z) : list Z * nat :=
  (map (fun _ => Z.of_nat g + 2) w, S g).

Definition state_dict_lines (ms : list (nnmodule Z)) : list nat :=
  [length ms].

Definition identity_item (item : list Z) : result (list Z) := Ok item.

Definition resnet50_f_item (block : unit) (layers : list Z)
  (alpha in_channels slow : Z) (base_bn_splits : option Z) (item : list Z)
  : result (list Z * list (list Z)) :=
  Ok ([256], [item]).

Definition resnet50_s_item (block : unit) (layers : list Z)
  (alpha in_channels slow : Z) (base_bn_splits : option Z) (item : list Z)
  (laterals : list (list Z)) : result (list Z) :=
  Ok [2048].

Definition UNet3D_item (in_channel n_classes feats : Z) (item : list Z)
  : result (list Z) :=
  match item with
  | [c; t; h; w] => Ok [n_classes; t; h; w]
  | _ => Err (RuntimeError OpConv3d)
  end.

Definition SBERT_item (max_len num_features : Z) (item : list Z)
  : result (list Z) :=
  Ok [max_len; 64].

Definition MulticlassClassifier_item (enc_dims mlp_hidden seq_len
  num_classes : Z) (item : list Z) : result (list Z) :=
  Ok [num_classes].

(** Eight frames of one pixel, for one batch item and one channel. *)
Definition eight_frames : tensor nat 5 :=
  [[[ [[0%nat]]; [[1%nat]]; [[2%nat]]; [[3%nat]];
      [[4%nat]]; [[5%nat]]; [[6%nat]]; [[7%nat]] ]]].

End Instance.

(** ** The models *)

Section Models.

Variable R : Type.
Variables r0 r1 : R.
Variable G : Type.
Variable kaiming_normal_ : G -> param R -> param R * G.

(** What [print] writes. *)
Variable Line : Type.

(** The [block] argument of the residual networks, a class of
    src/models/resnet.py, with the block [Bottleneck2DPlus1D]. *)
Variable Block : Type.
Variable Bottleneck2DPlus1D : Block.

(** *** Layers imported from src/models/layer.py *)

(** Modelled from the spec: [SpatioTemporalConv] and
    [SpatioTemporalResLayer] (src/models/layer.py, absent) are
    convolutional layers; what they do to time x height x width is
    left open, as a function of their constructor arguments. *)
Variable SpatioTemporalConv_dims :
  Z * Z * Z -> Z * Z * Z -> Z * Z * Z -> Z -> bool -> list Z -> result (list Z).
Variable SpatioTemporalResLayer_dims :
  Z -> Z -> Z -> bool -> list Z -> result (list Z).

(** The module trees these constructors build (their convolutions and
    batch normalisations with freshly initialised parameters), and those
    of the framework's containers, taken as they come. *)
Variable SpatioTemporalConv_modules : Z -> Z -> nnmodule R.
Variable SpatioTemporalResLayer_modules : Z -> Z -> Z -> bool -> nnmodule R.
Variable Sequential_modules : list seq_layer -> nnmodule R.

(** [state_dict()] of a model, as the lines that printing each name
    and size writes. *)
Variable state_dict_lines : list (nnmodule R) -> list Line.

Definition SpatioTemporalConv (in_channels out_channels : Z)
  (kernel_size stride padding : Z * Z * Z) (dilation : Z) (is_first : bool)
  : Layer :=
  {| layer_in := in_channels;
     layer_out := out_channels;
     layer_dims :=
       SpatioTemporalConv_dims kernel_size stride padding dilation is_first |}.

Definition SpatioTemporalResLayer (in_channels out_channels kernel_size : Z)
  (dilation layer_size : Z) (downsample : bool) : Layer :=
  {| layer_in := in_channels;
     layer_out := out_channels;
     layer_dims :=
       SpatioTemporalResLayer_dims kernel_size dilation layer_size downsample |}.

(** *** R2Plus1DNet *)

Record R2Plus1DNet := {
  r2_conv1 : Layer;
  r2_conv2 : Layer;
  r2_conv3 : Layer;
  r2_conv4 : Layer;
  r2_conv5 : Layer;
  r2_pool : shape -> result shape;
  r2_modules : list (nnmodule R)
}.

(** [R2Plus1DNet.__init__(layer_sizes, alpha)] *)
Definition R2Plus1DNet_init (layer_sizes : list Z) : result R2Plus1DNet :=
  l0 <- getitem layer_sizes 0 ;;
  l1 <- getitem layer_sizes 1 ;;
  l2 <- getitem layer_sizes 2 ;;
  l3 <- getitem layer_sizes 3 ;;
  Ok {| r2_conv1 :=
          SpatioTemporalConv 3 64 (1, 7, 7) (1, 2, 2) (0, 3, 3) 1 true;
        r2_conv2 := SpatioTemporalResLayer 64 64 3 1 l0 false;
        r2_conv3 := SpatioTemporalResLayer 64 128 3 1 l1 true;
        r2_conv4 := SpatioTemporalResLayer 128 256 3 1 l2 true;
        r2_conv5 := SpatioTemporalResLayer 256 512 3 1 l3 true;
        r2_pool := Torch.AdaptiveAvgPool3d_1;
        r2_modules :=
          [ SpatioTemporalConv_modules 3 64;
            SpatioTemporalResLayer_modules 64 64 l0 false;
            SpatioTemporalResLayer_modules 64 128 l1 true;
            SpatioTemporalResLayer_modules 128 256 l2 true;
            SpatioTemporalResLayer_modules 256 512 l3 true;
            NNModule OtherModule None None [] ] |}.

(** [R2Plus1DNet.forward] *)
Definition R2Plus1DNet_forward (self : R2Plus1DNet) (x : shape)
  : result shape :=
  batch_size <- Torch.size x 0 ;;
  x <- Layer_forward (r2_conv1 self) x ;;
  x <- Layer_forward (r2_conv2 self) x ;;
  x <- Layer_forward (r2_conv3 self) x ;;
  x <- Layer_forward (r2_conv4 self) x ;;
  x <- Layer_forward (r2_conv5 self) x ;;
  x <- r2_pool self x ;;
  Torch.view x [batch_size; -1].

(** *** R2Plus1DClassifier *)

Record R2Plus1DClassifier := {
  rc_input_size : Z * Z * Z * Z;
  rc_res2plus1d : R2Plus1DNet;
  rc_linear : list seq_layer;
  rc_linear_modules : nnmodule R
}.

(** [R2Plus1DClassifier.get_res2plus1d_output_size], which only reads
    [input_size] and [res2plus1d]. *)
Definition R2Plus1DClassifier_get_res2plus1d_output_size
  (input_size : Z * Z * Z * Z) (res2plus1d : R2Plus1DNet) : result shape :=
  sample <- Torch.zeros (with_batch 1 input_size) ;;
  R2Plus1DNet_forward res2plus1d sample.

(** [self.modules()] of the classifier: itself, the encoder and its
    layers, the head and its layers. *)
Definition R2Plus1DClassifier_modules (self : R2Plus1DClassifier)
  : list (nnmodule R) :=
  modules (NNModule OtherModule None None
             [ NNModule OtherModule None None (r2_modules (rc_res2plus1d self));
               rc_linear_modules self ]).

(** [R2Plus1DClassifier.__init_weight] *)
Definition R2Plus1DClassifier_init_weight (self : R2Plus1DClassifier) (g : G)
  : result (R2Plus1DClassifier * G) :=
  '(enc, g1) <-
     init_weight_children R r0 r1 G kaiming_normal_ g
       (r2_modules (rc_res2plus1d self)) ;;
  '(head, g2) <-
     init_weight_module R r0 r1 G kaiming_normal_ g1 (rc_linear_modules self) ;;
  let net := rc_res2plus1d self in
  Ok ({| rc_input_size := rc_input_size self;
         rc_res2plus1d :=
           {| r2_conv1 := r2_conv1 net; r2_conv2 := r2_conv2 net;
              r2_conv3 := r2_conv3 net; r2_conv4 := r2_conv4 net;
              r2_conv5 := r2_conv5 net; r2_pool := r2_pool net;
              r2_modules := enc |};
         rc_linear := rc_linear self;
         rc_linear_modules := head |}, g2).

(** [R2Plus1DClassifier.__load_pretrained_weights]: prints the name and
    the size of every entry of the state dictionary. *)
Definition R2Plus1DClassifier_load_pretrained_weights
  (self : R2Plus1DClassifier) : list Line :=
  state_dict_lines (R2Plus1DClassifier_modules self).

(** [R2Plus1DClassifier.__init__(input_size, num_classes, layer_sizes,
    pretrained, alpha)]; returns the model, the generator and what was
    printed. *)
Definition R2Plus1DClassifier_init (input_size : Z * Z * Z * Z)
  (num_classes : Z) (layer_sizes : list Z) (pretrained : bool) (g : G)
  : result (R2Plus1DClassifier * G * list Line) :=
  res2plus1d <- R2Plus1DNet_init layer_sizes ;;
  out <- R2Plus1DClassifier_get_res2plus1d_output_size input_size res2plus1d ;;
  linear_dims <- Torch.size out 1 ;;
  let linear :=
    [ SLinear linear_dims 128; SBatchNorm1d 128; SLeakyReLU;
      SLinear 128 num_classes ] in
  let self :=
    {| rc_input_size := input_size;
       rc_res2plus1d := res2plus1d;
       rc_linear := linear;
       rc_linear_modules := Sequential_modules linear |} in
  '(self, g) <- R2Plus1DClassifier_init_weight self g ;;
  if pretrained
  then Ok (self, g, R2Plus1DClassifier_load_pretrained_weights self)
  else Ok (self, g, []).


(** [R2Plus1DClassifier.forward]; [training] is the mode of the
    module, [self.training]. *)
Definition R2Plus1DClassifier_forward (self : R2Plus1DClassifier)
  (training : bool) (x : shape) : result shape :=
  x <- R2Plus1DNet_forward (rc_res2plus1d self) x ;;
  Sequential_forward training (rc_linear self) x.

(** *** Models over tensors

    [SlowFastEncoder], [SlowFastDisruptionClassifier] and
    [SBERTDisruptionClassifier] are written over an arbitrary type [T] of
    tensors with the framework operations they call, so that the same
    definitions run on shapes and on tensor contents. *)
Section OverTensors.

Variable T : Type.
(** [x.size()] *)
Variable T_size : T -> shape.
(** [torch.zeros(size)] *)
Variable T_zeros : shape -> result T.
(** [x[:, :, ::step, :, :]] *)
Variable T_slice_time : Z -> T -> result T.
(** [torch.cat([a, b], dim = 1)] *)
Variable T_cat1 : T -> T -> result T.
(** [nn.Dropout(p)] in the given mode, drawing from the generator. *)
Variable T_dropout : bool -> G -> T -> T * G.
(** [nn.Sequential] of head layers in the given mode. *)
Variable T_Sequential : bool -> list seq_layer -> T -> result T.

(** Modelled from the spec: the two pathway networks of
    src/models/slowfast.py (absent), built from [block], [layers],
    [alpha], [in_channels], [slow] and [base_bn_splits].  The fast
    network returns its features and the lateral tensors; the slow one
    takes its input together with the laterals. *)
Variable resnet50_s :
  Block -> list Z -> Z -> Z -> Z -> option Z -> T * list T -> result T.
Variable resnet50_f :
  Block -> list Z -> Z -> Z -> Z -> option Z -> T -> result (T * list T).

Record SlowFastEncoder := {
  sfe_input_shape : Z * Z * Z * Z;
  sfe_seq_len : Z;
  sfe_in_channels : Z;
  sfe_alpha : Z;
  sfe_tau_fast : Z;
  sfe_slownet : T * list T -> result T;
  sfe_fastnet : T -> result (T * list T);
  sfe_dropout : bool -> G -> T -> T * G
}.

(** [SlowFastEncoder.__init__(input_shape, block, layers, alpha, p,
    tau_fast, base_bn_splits)] *)
Definition SlowFastEncoder_init (input_shape : Z * Z * Z * Z)
  (block : Block) (layers : list Z) (alpha : Z) (tau_fast : Z)
  (base_bn_splits : option Z) : SlowFastEncoder :=
  let '(c, t, _, _) := input_shape in
  {| sfe_input_shape := input_shape;
     sfe_seq_len := t;
     sfe_in_channels := c;
     sfe_alpha := alpha;
     sfe_tau_fast := tau_fast;
     sfe_slownet := resnet50_s block layers alpha c 1 base_bn_splits;
     sfe_fastnet := resnet50_f block layers alpha c 0 base_bn_splits;
     sfe_dropout := T_dropout |}.

(** [SlowFastEncoder.split_slow_fast] *)
Definition SlowFastEncoder_split_slow_fast (self : SlowFastEncoder) (x : T)
  : result (T * T) :=
  let tau_fast := sfe_tau_fast self in
  let tau_slow := tau_fast * sfe_alpha self in
  x_slow <- T_slice_time tau_slow x ;;
  x_fast <- T_slice_time tau_fast x ;;
  Ok (x_slow, x_fast).

(** [SlowFastEncoder.forward] *)
Definition SlowFastEncoder_forward (self : SlowFastEncoder)
  (training : bool) (g : G) (x : T) : result (T * G) :=
  '(x_slow, x_fast) <- SlowFastEncoder_split_slow_fast self x ;;
  '(x_fast, laterals) <- sfe_fastnet self x_fast ;;
  x_slow <- sfe_slownet self (x_slow, laterals) ;;
  x <- T_cat1 x_slow x_fast ;;
  Ok (sfe_dropout self training g x).

(** [SlowFastEncoder.get_output_size] *)
Definition SlowFastEncoder_get_output_size (self : SlowFastEncoder)
  (training : bool) (g : G) : result (shape * G) :=
  sample <- T_zeros (with_batch 8 (sfe_input_shape self)) ;;
  '(sample_output, g) <- SlowFastEncoder_forward self training g sample ;;
  Ok (T_size sample_output, g).

Record SlowFastDisruptionClassifier := {
  sdc_input_shape : Z * Z * Z * Z;
  sdc_base_bn_splits : option Z;
  sdc_slowfast : SlowFastEncoder;
  sdc_classifier : list seq_layer
}.

(** [SlowFastDisruptionClassifier.__init__]; a freshly constructed
    module is in training mode. *)
Definition SlowFastDisruptionClassifier_init (input_shape : Z * Z * Z * Z)
  (block : Block) (layers : list Z) (alpha : Z) (mlp_hidden : Z)
  (num_classes : Z) (tau_fast : Z) (base_bn_splits : option Z) (g : G)
  : result (SlowFastDisruptionClassifier * G) :=
  let slowfast :=
    SlowFastEncoder_init input_shape block layers alpha tau_fast
      base_bn_splits in
  '(out, g) <- SlowFastEncoder_get_output_size slowfast true g ;;
  slowfast_output_dim <- Torch.size_last out ;;
  Ok ({| sdc_input_shape := input_shape;
         sdc_base_bn_splits := base_bn_splits;
         sdc_slowfast := slowfast;
         sdc_classifier :=
           [ SLinear slowfast_output_dim mlp_hidden;
             SBatchNorm1d mlp_hidden; SReLU;
             SLinear mlp_hidden mlp_hidden;
             SBatchNorm1d mlp_hidden; SReLU;
             SLinear mlp_hidden num_classes ] |}, g).

(** [SlowFastDisruptionClassifier.forward] *)
Definition SlowFastDisruptionClassifier_forward
  (self : SlowFastDisruptionClassifier) (training : bool) (g : G) (x : T)
  : result (T * G) :=
  '(x, g) <- SlowFastEncoder_forward (sdc_slowfast self) training g x ;;
  x <- T_Sequential training (sdc_classifier self) x ;;
  Ok (x, g).

(** *** SBERTDisruptionClassifier *)

(** A 2-D integer tensor, by rows. *)
Definition int_tensor := list (list Z).

(** Modelled from the spec: the sequence encoder [SBERT] of
    src/models/transformer.py (absent), an object with [max_len],
    [num_features] and a forward pass over [(x, doy, mask)]. *)
Record SBERT := {
  sbert_max_len : Z;
  sbert_num_features : Z;
  sbert_forward : T -> int_tensor -> option int_tensor -> result T
}.

(** Modelled from the spec: the head [MulticlassClassifier] of
    src/models/layer.py (absent), built from [enc_dims], [mlp_hidden],
    [seq_len] and [num_classes]. *)
Variable MulticlassClassifier : Z -> Z -> Z -> Z -> T -> result T.

(** [VideoSpatioEncoder.forward] on tensors. *)
Variable T_VideoSpatioEncoder_forward : VideoSpatioEncoder -> T -> result T.

(** [list(map(int, range(1, stop + 1)))] *)
Definition range1 (stop : Z) : list Z :=
  map Z.of_nat (seq 1 (Z.to_nat stop)).

(** [torch.IntTensor(values)]: 32-bit entries. *)
Definition IntTensor (values : list Z) : result (list Z) :=
  if forallb (fun v => (- 2 ^ 31 <=? v) && (v <? 2 ^ 31)) values
  then Ok values
  else Err (RuntimeError OpIntTensor).

(** [row.repeat(n, 1)] of a 1-D tensor: [n] rows. *)
Definition repeat_rows (row : list Z) (n : Z) : int_tensor :=
  repeat row (Z.to_nat n).

Record SBERTDisruptionClassifier := {
  sb_spatio_encoder : VideoSpatioEncoder;
  sb_sbert : SBERT;
  sb_classifier : T -> result T
}.

(** [SBERTDisruptionClassifier.get_sbert_output], which only reads
    [sbert]. *)
Definition SBERTDisruptionClassifier_get_sbert_output (sbert : SBERT)
  : result Z :=
  let seq_len := sbert_max_len sbert in
  let num_features := sbert_num_features sbert in
  let doy_dims := seq_len in
  sample_x <- T_zeros [1; seq_len; num_features] ;;
  row <- IntTensor (range1 doy_dims) ;;
  let sample_doy := repeat_rows row 1 in
  row' <- IntTensor (range1 doy_dims) ;;
  let sample_mask := repeat_rows row' 1 in
  sample_output <- sbert_forward sbert sample_x sample_doy (Some sample_mask) ;;
  Torch.size (T_size sample_output) 2.

(** [SBERTDisruptionClassifier.__init__(spatio_encoder, sbert,
    mlp_hidden, num_classes, alpha)] *)
Definition SBERTDisruptionClassifier_init
  (spatio_encoder : VideoSpatioEncoder) (sbert : SBERT)
  (mlp_hidden num_classes : Z) : result SBERTDisruptionClassifier :=
  enc_dims <- SBERTDisruptionClassifier_get_sbert_output sbert ;;
  Ok {| sb_spatio_encoder := spatio_encoder;
        sb_sbert := sbert;
        sb_classifier :=
          MulticlassClassifier enc_dims mlp_hidden (sbert_max_len sbert)
            num_classes |}.

(** [SBERTDisruptionClassifier.forward] *)
Definition SBERTDisruptionClassifier_forward
  (self : SBERTDisruptionClassifier) (x : T) : result T :=
  x <- T_VideoSpatioEncoder_forward (sb_spatio_encoder self) x ;;
  row <- IntTensor (range1 (sbert_max_len (sb_sbert self))) ;;
  n <- Torch.size (T_size x) 0 ;;
  let doy := repeat_rows row n in
  let mask := @None int_tensor in
  x <- sbert_forward (sb_sbert self) x doy mask ;;
  sb_classifier self x.

End OverTensors.

Arguments sfe_input_shape {T} _.
Arguments sfe_seq_len {T} _.
Arguments sfe_in_channels {T} _.
Arguments sfe_alpha {T} _.
Arguments sfe_tau_fast {T} _.
Arguments sfe_slownet {T} _.
Arguments sfe_fastnet {T} _.
Arguments sfe_dropout {T} _.
Arguments sdc_input_shape {T} _.
Arguments sdc_base_bn_splits {T} _.
Arguments sdc_slowfast {T} _.
Arguments sdc_classifier {T} _.
Arguments sbert_max_len {T} _.
Arguments sbert_num_features {T} _.
Arguments sbert_forward {T} _.
Arguments sb_spatio_encoder {T} _.
Arguments sb_sbert {T} _.
Arguments sb_classifier {T} _.

(** *** ResNet50 and the encoders built on it *)

(** Modelled from the spec: the five stages [layer0] .. [layer4] that
    the base class [ResNet2DPlus1D] (src/models/resnet.py, absent)
    builds from [block], [layers], [alpha] and [in_channels]. *)
Variable ResNet2DPlus1D_item :
  nat -> Block -> list Z -> Z -> Z -> list Z -> result (list Z).

Record ResNet50 := {
  rn_layer0 : shape -> result shape;
  rn_layer1 : shape -> result shape;
  rn_layer2 : shape -> result shape;
  rn_layer3 : shape -> result shape;
  rn_layer4 : shape -> result shape
}.

(** [ResNet50.__init__(block, layers, **kwargs)] *)
Definition ResNet50_init (block : Block) (layers : list Z)
  (alpha in_channels : Z) : ResNet50 :=
  let stage i := batchwise (ResNet2DPlus1D_item i block layers alpha in_channels) in
  {| rn_layer0 := stage 0%nat; rn_layer1 := stage 1%nat;
     rn_layer2 := stage 2%nat; rn_layer3 := stage 3%nat;
     rn_layer4 := stage 4%nat |}.

(** [ResNet50.forward] *)
Definition ResNet50_forward (self : ResNet50) (x : shape) : result shape :=
  x <- rn_layer0 self x ;;
  x <- rn_layer1 self x ;;
  x <- rn_layer2 self x ;;
  x <- rn_layer3 self x ;;
  rn_layer4 self x.

Record SITSBertSpatialEncoder := {
  sse_input_shape : Z * Z * Z * Z;
  sse_seq_len : Z;
  sse_resnet : ResNet50
}.

(** [SITSBertSpatialEncoder.__init__(input_shape, alpha, layers, block)] *)
Definition SITSBertSpatialEncoder_init (input_shape : Z * Z * Z * Z)
  (alpha : Z) (layers : list Z) (block : Block) : SITSBertSpatialEncoder :=
  let '(c, t, _, _) := input_shape in
  {| sse_input_shape := input_shape;
     sse_seq_len := t;
     sse_resnet := ResNet50_init block layers alpha c |}.

(** [SITSBertSpatialEncoder.forward] *)
Definition SITSBertSpatialEncoder_forward (self : SITSBertSpatialEncoder)
  (x : shape) : result shape :=
  x <- ResNet50_forward (sse_resnet self) x ;;
  x0 <- Torch.size x 0 ;;
  Torch.view x [x0; sse_seq_len self; -1].

(** [SITSBertSpatialEncoder.get_output_size] *)
Definition SITSBertSpatialEncoder_get_output_size
  (self : SITSBertSpatialEncoder) : result shape :=
  sample <- Torch.zeros (with_batch 4 (sse_input_shape self)) ;;
  SITSBertSpatialEncoder_forward self sample.

(** *** Unet3DClassifier *)

(** Modelled from the spec: [UNet3D] (src/models/unet3d.py, absent),
    built from [in_channel], [n_classes] and [feats]. *)
Variable UNet3D_item : Z -> Z -> Z -> list Z -> result (list Z).

Record Unet3DClassifier := {
  uc_spatio_encoder : shape -> result shape;
  uc_input_shape : Z * Z * Z * Z;
  uc_resnet : ResNet50;
  uc_classifier : list seq_layer
}.

(** [Unet3DClassifier.get_encoder_output], which only reads
    [input_shape] and [spatio_encoder]. *)
Definition Unet3DClassifier_get_encoder_output (input_shape : Z * Z * Z * Z)
  (spatio_encoder : shape -> result shape) : result shape :=
  sample_input <- Torch.zeros (with_batch 4 input_shape) ;;
  spatio_encoder sample_input.

(** [Unet3DClassifier.get_resnet_output], which also reads [resnet]. *)
Definition Unet3DClassifier_get_resnet_output (input_shape : Z * Z * Z * Z)
  (spatio_encoder : shape -> result shape) (resnet : ResNet50)
  : result shape :=
  sample_input <- Torch.zeros (with_batch 4 input_shape) ;;
  sample_output <- spatio_encoder sample_input ;;
  sample_output <- ResNet50_forward resnet sample_output ;;
  Torch.flatten1 sample_output.

(** [Unet3DClassifier.__init__(input_shape, Unet3D_class, feats,
    mlp_hidden, num_classes, alpha, resnet_layers)] *)
Definition Unet3DClassifier_init (input_shape : Z * Z * Z * Z)
  (Unet3D_class feats mlp_hidden num_classes alpha : Z)
  (resnet_layers : list Z) : result Unet3DClassifier :=
  let spatio_encoder := batchwise (UNet3D_item 3 Unet3D_class feats) in
  enc_output <- Unet3DClassifier_get_encoder_output input_shape spatio_encoder ;;
  c <- Torch.size enc_output 1 ;;
  let resnet := ResNet50_init Bottleneck2DPlus1D resnet_layers alpha c in
  out <- Unet3DClassifier_get_resnet_output input_shape spatio_encoder resnet ;;
  classifier_dims <- Torch.size_last out ;;
  Ok {| uc_spatio_encoder := spatio_encoder;
        uc_input_shape := input_shape;
        uc_resnet := resnet;
        uc_classifier :=
          [ SLinear classifier_dims mlp_hidden; SBatchNorm1d mlp_hidden;
            SReLU; SLinear mlp_hidden num_classes ] |}.

(** [Unet3DClassifier.forward] *)
Definition Unet3DClassifier_forward (self : Unet3DClassifier)
  (training : bool) (x : shape) : result shape :=
  x <- uc_spatio_encoder self x ;;
  x <- ResNet50_forward (uc_resnet self) x ;;
  x <- Torch.flatten1 x ;;
  Sequential_forward training (uc_classifier self) x.

(** *** The models of src/model.py that src/models/model.py dropped *)

(** Modelled from the spec: the stages [conv1], [bn1], [relu],
    [maxpool], [layer1] .. [layer4] of [ResNet3D] (src/resnet.py,
    absent), built from the constructor's arguments. *)
Variable ResNet3D_item :
  nat -> Block -> list Z -> Z -> Z -> Z -> Z -> Z -> list Z -> result (list Z).

Record VideoSpatialEncoder := {
  vsp_input_shape : Z * Z * Z * Z;
  vsp_seq_len : Z;
  vsp_resnet : nat -> shape -> result shape
}.

(** [VideoSpatialEncoder.__init__] *)
Definition VideoSpatialEncoder_init (input_shape : Z * Z * Z * Z)
  (block : Block) (layers : list Z)
  (in_channels num_classes alpha slow t2s_mul : Z) : VideoSpatialEncoder :=
  let '(_, t, _, _) := input_shape in
  {| vsp_input_shape := input_shape;
     vsp_seq_len := t;
     vsp_resnet := fun i =>
       batchwise (ResNet3D_item i block layers in_channels num_classes alpha
                    slow t2s_mul) |}.

(** [VideoSpatialEncoder.forward] *)
Definition VideoSpatialEncoder_forward (self : VideoSpatialEncoder)
  (x : shape) : result shape :=
  x <- vsp_resnet self 0%nat x ;;
  x <- vsp_resnet self 1%nat x ;;
  x <- vsp_resnet self 2%nat x ;;
  x <- vsp_resnet self 3%nat x ;;
  x <- vsp_resnet self 4%nat x ;;
  x <- vsp_resnet self 5%nat x ;;
  x <- vsp_resnet self 6%nat x ;;
  x <- vsp_resnet self 7%nat x ;;
  x <- Torch.AdaptiveAvgPool3d_1 x ;;
  x <- Torch.elementwise x ;;
  x0 <- Torch.size x 0 ;;
  Torch.view x [x0; vsp_seq_len self; -1].

(** Modelled from the spec: [SpatialTransformer] (src/layer.py,
    absent), which maps an image batch to an image batch. *)
Variable SpatialTransformer_item : list Z -> result (list Z).

(** [MNIST_Net.forward]; the layers are those of [MNIST_Net.__init__]. *)
Definition MNIST_Net_forward (x : shape) : result shape :=
  batch <- Torch.size x 0 ;;
  x <- batchwise SpatialTransformer_item x ;;
  x <- Torch.Conv2d 1 10 5 x ;;
  x <- Torch.max_pool2d 2 x ;;
  x <- Torch.elementwise x ;;
  x <- Torch.Conv2d 10 20 5 x ;;
  x <- Torch.elementwise x ;;
  x <- Torch.max_pool2d 2 x ;;
  x <- Torch.elementwise x ;;
  x <- Torch.view x [batch; -1] ;;
  x <- Torch.Linear 320 50 x ;;
  x <- Torch.elementwise x ;;
  x <- Torch.elementwise x ;;
  x <- Torch.Linear 50 10 x ;;
  Torch.log_softmax1 x.

(** *** The tensor models on shapes *)

(** Modelled from the spec: on shapes the two pathway networks act on
    every batch item alike.  The fast network gives the per-item
    dimensions of its features and of each lateral; the slow network
    takes the per-item dimensions of its input and of the laterals. *)
Variable resnet50_f_item :
  Block -> list Z -> Z -> Z -> Z -> option Z -> list Z ->
  result (list Z * list (list Z)).
Variable resnet50_s_item :
  Block -> list Z -> Z -> Z -> Z -> option Z -> list Z -> list (list Z) ->
  result (list Z).

Definition shape_resnet50_f (block : Block) (layers : list Z)
  (alpha in_channels slow : Z) (base_bn_splits : option Z) (x : shape)
  : result (shape * list shape) :=
  match x with
  | n :: item =>
      '(o, lats) <-
        resnet50_f_item block layers alpha in_channels slow base_bn_splits item ;;
      Ok (n :: o, map (cons n) lats)
  | [] => Err (RuntimeError OpModule)
  end.

(** The per-item dimensions of laterals of batch size [n]. *)
Fixpoint lateral_items (n : Z) (lats : list shape) : result (list (list Z)) :=
  match lats with
  | [] => Ok []
  | (n' :: item) :: r =>
      if n' =? n then r' <- lateral_items n r ;; Ok (item :: r')
      else Err (RuntimeError OpModule)
  | [] :: _ => Err (RuntimeError OpModule)
  end.

Definition shape_resnet50_s (block : Block) (layers : list Z)
  (alpha in_channels slow : Z) (base_bn_splits : option Z)
  (xl : shape * list shape) : result shape :=
  match fst xl with
  | n :: item =>
      lats <- lateral_items n (snd xl) ;;
      o <- resnet50_s_item block layers alpha in_channels slow base_bn_splits
             item lats ;;
      Ok (n :: o)
  | [] => Err (RuntimeError OpModule)
  end.

(** [nn.Dropout] keeps the shape and, on shapes, the generator. *)
Definition shape_dropout (training : bool) (g : G) (x : shape) : shape * G :=
  (x, g).

Definition shape_SlowFastEncoder_init :=
  SlowFastEncoder_init shape shape_dropout shape_resnet50_s shape_resnet50_f.

Definition shape_SlowFastEncoder_forward :=
  SlowFastEncoder_forward shape Torch.slice_time Torch.cat1.

Definition shape_SlowFastDisruptionClassifier_init :=
  SlowFastDisruptionClassifier_init shape (fun s => s) Torch.zeros
    Torch.slice_time Torch.cat1 shape_dropout shape_resnet50_s
    shape_resnet50_f.

Definition shape_SlowFastDisruptionClassifier_forward :=
  SlowFastDisruptionClassifier_forward shape Torch.slice_time Torch.cat1
    Sequential_forward.

(** Modelled from the spec: on shapes the sequence encoder and the
    head act on every batch item alike. *)
Variable SBERT_item : Z -> Z -> list Z -> result (list Z).
Variable MulticlassClassifier_item :
  Z -> Z -> Z -> Z -> list Z -> result (list Z).

Definition shape_SBERT (max_len num_features : Z) : SBERT shape :=
  {| sbert_max_len := max_len;
     sbert_num_features := num_features;
     sbert_forward := fun x _ _ => batchwise (SBERT_item max_len num_features) x |}.

Definition shape_MulticlassClassifier (enc_dims mlp_hidden seq_len
  num_classes : Z) : shape -> result shape :=
  batchwise (MulticlassClassifier_item enc_dims mlp_hidden seq_len num_classes).

Definition shape_SBERTDisruptionClassifier_init :=
  SBERTDisruptionClassifier_init shape (fun s => s) Torch.zeros
    shape_MulticlassClassifier.

Definition shape_SBERTDisruptionClassifier_forward :=
  SBERTDisruptionClassifier_forward shape (fun s => s)
    VideoSpatioEncoder_forward.


(** * Properties *)

(** ** The error monad *)

Lemma bind_ok {A B} (r : result A) (k : A -> result B) (b : B) :
  bind r k = Ok b <-> exists a, r = Ok a /\ k a = Ok b.
Proof.
  destruct r as [a|e]; simpl; split.
  - intros H. exists a. auto.
  - intros (a' & Ha & Hk). injection Ha as ->. exact Hk.
  - discriminate.
  - intros (a' & Ha & _). discriminate.
Qed.

Lemma bind_err {A B} (r : result A) (k : A -> result B) (e : error) :
  bind r k = Err e <-> r = Err e \/ exists a, r = Ok a /\ k a = Err e.
Proof.
  destruct r as [a|e']; simpl; split.
  - intros H. right. exists a. auto.
  - intros [H|(a' & Ha & Hk)]; [discriminate|]. injection Ha as ->. exact Hk.
  - intros H. left. congruence.
  - intros [H|(a' & Ha & _)]; [congruence|discriminate].
Qed.

(** Splits a hypothesis [H] that a chain of binds succeeded into its
    steps. *)
Ltac bind_inv H :=
  repeat (
    let a := fresh "x" in
    let Ha := fresh "E" in
    apply bind_ok in H; destruct H as (a & Ha & H)).

(** Splits off the first step of a chain of binds that succeeded. *)
Ltac bind_step H x Hx :=
  apply bind_ok in H; destruct H as (x & Hx & H).

(** ** The framework on shapes *)

Lemma numel_cons (a : Z) (s : shape) :
  Torch.numel (a :: s) = a * Torch.numel s.
Proof. reflexivity. Qed.

Lemma numel_one (a : Z) : Torch.numel [a] = a.
Proof. unfold Torch.numel. simpl. lia. Qed.

Lemma numel_two (a b : Z) : Torch.numel [a; b] = a * b.
Proof. unfold Torch.numel. simpl. lia. Qed.

Ltac view_norm :=
  unfold Torch.view; cbn [forallb existsb filter map length];
  change (-1 =? -1) with true; change (-1 <=? -1) with true;
  cbn [negb andb orb filter length].

Lemma view_two (s : shape) (a : Z) :
  0 < a -> Torch.numel s mod a = 0 ->
  Torch.view s [a; -1] = Ok [a; Torch.numel s / a].
Proof.
  intros Ha Hm.
  assert (E1 : (-1 <=? a) = true) by (apply Z.leb_le; lia).
  assert (E2 : (a =? -1) = false) by (apply Z.eqb_neq; lia).
  assert (E3 : (0 <? a) = true) by (apply Z.ltb_lt; lia).
  assert (E4 : (Torch.numel s mod a =? 0) = true) by (apply Z.eqb_eq; exact Hm).
  assert (E5 : (a =? 0) = false) by (apply Z.eqb_neq; lia).
  view_norm. rewrite E1, E2.
  cbn [negb andb orb filter length].
  rewrite ?numel_one.
  change (1 <? Z.of_nat 2 - Z.of_nat 1) with false. cbv iota.
  rewrite orb_true_r. cbn [andb].
  rewrite E3, E4, E5. cbn [andb]. rewrite orb_true_r. reflexivity.
Qed.

Lemma view_two_inv (s : shape) (a : Z) (out : shape) :
  Torch.view s [a; -1] = Ok out -> 0 < a /\ out = [a; Torch.numel s / a].
Proof.
  view_norm.
  destruct (-1 <=? a) eqn:E1; cbn [negb andb]; [|discriminate].
  destruct (a =? -1) eqn:E2; cbn [negb filter length fold_right].
  - change (1 <? Z.of_nat 2 - Z.of_nat 0) with true. discriminate.
  - change (1 <? Z.of_nat 2 - Z.of_nat 1) with false. cbv iota.
    rewrite !numel_one, !orb_true_r. cbn [andb].
    destruct (a =? 0) eqn:E5.
    + destruct (_ || _); discriminate.
    + destruct (0 <? a) eqn:E3.
      * destruct (_ || _); [|discriminate].
        intros H. injection H as <-.
        apply Z.ltb_lt in E3. auto.
      * cbn [andb]. rewrite orb_false_r.
        destruct (_ =? a) eqn:E6; [|discriminate].
        intros _. exfalso.
        apply Z.eqb_neq in E5. apply Z.ltb_ge in E3. apply Z.leb_le in E1.
        apply Z.eqb_neq in E2. lia.
Qed.

Lemma view_three (s : shape) (a b : Z) :
  0 < a -> 0 < b -> Torch.numel s mod (a * b) = 0 ->
  Torch.view s [a; b; -1] = Ok [a; b; Torch.numel s / (a * b)].
Proof.
  intros Ha Hb Hm.
  assert (E1 : (-1 <=? a) = true) by (apply Z.leb_le; lia).
  assert (E1' : (-1 <=? b) = true) by (apply Z.leb_le; lia).
  assert (E2 : (a =? -1) = false) by (apply Z.eqb_neq; lia).
  assert (E2' : (b =? -1) = false) by (apply Z.eqb_neq; lia).
  assert (E3 : (0 <? a * b) = true) by (apply Z.ltb_lt; nia).
  assert (E4 : (Torch.numel s mod (a * b) =? 0) = true)
    by (apply Z.eqb_eq; exact Hm).
  assert (E5 : (a * b =? 0) = false) by (apply Z.eqb_neq; nia).
  view_norm. rewrite E1, E1', E2, E2'.
  cbn [negb andb orb filter length].
  rewrite ?numel_two.
  change (1 <? Z.of_nat 3 - Z.of_nat 2) with false. cbv iota.
  rewrite !orb_true_r. cbn [andb].
  rewrite E3, E4, E5. cbn [andb]. rewrite orb_true_r. reflexivity.
Qed.

Lemma view_three_inv (s : shape) (a b : Z) (out : shape) :
  Torch.view s [a; b; -1] = Ok out -> exists r, out = a :: r.
Proof.
  view_norm. intros H.
  destruct (negb _); [discriminate|].
  destruct (1 <? _) eqn:E1; [discriminate|].
  destruct (_ || _); [|discriminate].
  rewrite !orb_true_r in H.
  destruct (_ =? 0); [discriminate|].
  injection H as <-.
  destruct (a =? -1) eqn:E.
  - exfalso. revert E1. cbn [negb filter length].
    destruct (negb (b =? -1)); cbn; discriminate.
  - eexists. reflexivity.
Qed.

(** ** VideoSpatioEncoder on its configured input *)



(** With no batch item the reshape has nothing to infer the last size
    from, and the framework refuses it. *)
Lemma VideoSpatioEncoder_forward_empty_batch :
  VideoSpatioEncoder_forward (VideoSpatioEncoder_init default_input_shape)
    (with_batch 0 default_input_shape) = Err (RuntimeError OpView).
Proof. vm_compute. reflexivity. Qed.

(** ** Strided slicing *)

Lemma nth_error_strided {A : Type} (step : nat) (l : list A) :
  (0 < step)%nat ->
  forall skip j,
    nth_error (strided step skip l) j = nth_error l (skip + j * step).
Proof.
  intros Hs. induction l as [|x r IH]; intros skip j.
  - simpl. now destruct j, (skip + _)%nat.
  - destruct skip as [|k]; simpl.
    + destruct j as [|j]; simpl; [reflexivity|].
      rewrite IH. destruct step as [|s]; [lia|].
      simpl. f_equal. lia.
    + apply IH.
Qed.

Lemma length_strided {A : Type} (step : nat) (l : list A) :
  (0 < step)%nat ->
  forall skip,
    length (strided step skip l) = ((length l + (step - 1) - skip) / step)%nat.
Proof.
  intros Hs. induction l as [|x r IH]; intros skip.
  - simpl. symmetry. apply Nat.div_small. lia.
  - destruct skip as [|k]; cbn [strided length].
    + rewrite IH.
      replace (length r + (step - 1) - (step - 1))%nat with (length r) by lia.
      replace (S (length r) + (step - 1) - 0)%nat
        with (length r + 1 * step)%nat by lia.
      rewrite Nat.div_add by lia. lia.
    + rewrite IH. reflexivity.
Qed.

Lemma strided_one {A : Type} (l : list A) : strided 1 0 l = l.
Proof. induction l as [|x r IH]; simpl; [reflexivity|now rewrite IH]. Qed.

(** Subsampling by [a] and then by [b] is subsampling by [a * b]. *)
Lemma strided_compose {A : Type} (a b : nat) (l : list A) :
  (0 < a)%nat -> (0 < b)%nat ->
  strided b 0 (strided a 0 l) = strided (a * b) 0 l.
Proof.
  intros Ha Hb. apply nth_error_ext. intros j.
  rewrite !nth_error_strided by nia.
  simpl. f_equal. lia.
Qed.

Lemma tensor5_frame_slice {A : Type} (step : nat)
  (x : list (list (list (tensor A 2)))) (n c t : nat) :
  (0 < step)%nat ->
  @tensor5_frame A (map (map (strided step 0)) x) n c t
  = @tensor5_frame A x n c (t * step).
Proof.
  intros Hs. unfold tensor5_frame.
  rewrite nth_error_map.
  destruct (nth_error x n) as [b|]; cbn [option_map]; [|reflexivity].
  rewrite nth_error_map.
  destruct (nth_error b c) as [frames|]; cbn [option_map]; [|reflexivity].
  now rewrite nth_error_strided.
Qed.

Lemma tensor5_frames_slice {A : Type} (step : nat)
  (x : list (list (list (tensor A 2)))) (n c k : nat) :
  (0 < step)%nat ->
  @tensor5_frames A x n c = Some k ->
  @tensor5_frames A (map (map (strided step 0)) x) n c
  = Some ((k + (step - 1)) / step)%nat.
Proof.
  intros Hs. unfold tensor5_frames.
  rewrite nth_error_map.
  destruct (nth_error x n) as [b|]; cbn [option_map]; [|discriminate].
  rewrite nth_error_map.
  destruct (nth_error b c) as [frames|]; cbn [option_map]; [|discriminate].
  intros H. injection H as <-.
  rewrite length_strided by assumption. now rewrite Nat.sub_0_r.
Qed.

Lemma tensor5_slice_time_compose {A : Type} (a b : Z) (x : tensor A 5) :
  0 < a -> 0 < b ->
  bind (tensor5_slice_time a x) (tensor5_slice_time b)
  = tensor5_slice_time (a * b) x.
Proof.
  intros Ha Hb. unfold tensor5_slice_time.
  assert (E1 : (0 <? a) = true) by (apply Z.ltb_lt; lia).
  assert (E2 : (0 <? b) = true) by (apply Z.ltb_lt; lia).
  assert (E3 : (0 <? a * b) = true) by (apply Z.ltb_lt; nia).
  rewrite E1, E3. cbn [bind]. rewrite E2. f_equal.
  rewrite map_map. apply map_ext. intros bt.
  rewrite map_map. apply map_ext. intros frames.
  rewrite strided_compose by lia.
  now rewrite Z2Nat.inj_mul by lia.
Qed.

(** C2: [SlowFastEncoder.split_slow_fast] returns [(x_slow, x_fast)]
    where frame [t] of [x_fast] is frame [t * tau_fast] of [x] and frame
    [t] of [x_slow] is frame [t * (tau_fast * alpha)] of [x], for every
    batch item and channel; so frame [t] of the slow stream is frame
    [t * alpha] of the fast stream, and a channel of [k] frames keeps
    the frames [0, step, 2 * step, ...] below [k].  With [tau_fast = 1]
    and [alpha = 4] the fast stream is [x] itself and the slow stream
    holds every 4th frame.  The steps are positive, as the framework
    requires of a slice. *)
Theorem SlowFastEncoder_split_slow_fast_strides {A : Type}
  (self : SlowFastEncoder (tensor A 5)) (x : tensor A 5) :
  0 < sfe_tau_fast self -> 0 < sfe_alpha self ->
  let tau_fast := Z.to_nat (sfe_tau_fast self) in
  let alpha := Z.to_nat (sfe_alpha self) in
  exists x_slow x_fast : tensor A 5,
    SlowFastEncoder_split_slow_fast (tensor A 5) tensor5_slice_time self x
    = Ok (x_slow, x_fast) /\
    (forall n c t,
       tensor5_frame x_fast n c t = tensor5_frame x n c (t * tau_fast)) /\
    (forall n c t,
       tensor5_frame x_slow n c t
       = tensor5_frame x n c (t * (tau_fast * alpha))) /\
    (forall n c t,
       tensor5_frame x_slow n c t = tensor5_frame x_fast n c (t * alpha)) /\
    (forall n c k,
       tensor5_frames x n c = Some k ->
       tensor5_frames x_fast n c
       = Some ((k + (tau_fast - 1)) / tau_fast)%nat /\
       tensor5_frames x_slow n c
       = Some ((k + (tau_fast * alpha - 1)) / (tau_fast * alpha))%nat) /\
    (sfe_tau_fast self = 1 -> sfe_alpha self = 4 ->
     x_fast = x /\
     forall n c t,
       tensor5_frame x_slow n c t = tensor5_frame x n c (4 * t)).
Proof.
  intros Ht Ha tau_fast alpha.
  assert (Htn : (0 < tau_fast)%nat) by (subst tau_fast; lia).
  assert (Han : (0 < alpha)%nat) by (subst alpha; lia).
  unfold SlowFastEncoder_split_slow_fast, tensor5_slice_time.
  assert (E1 : (0 <? sfe_tau_fast self) = true) by (apply Z.ltb_lt; lia).
  assert (E2 : (0 <? sfe_tau_fast self * sfe_alpha self) = true)
    by (apply Z.ltb_lt; nia).
  rewrite E1, E2. cbn [bind].
  rewrite Z2Nat.inj_mul by lia. fold tau_fast alpha.
  eexists. eexists. split; [reflexivity|].
  split; [|split; [|split; [|split]]].
  - intros n c t. now apply tensor5_frame_slice.
  - intros n c t. apply tensor5_frame_slice. nia.
  - intros n c t. rewrite !tensor5_frame_slice by nia. f_equal. lia.
  - intros n c k Hk. split; now apply tensor5_frames_slice; [nia|].
  - intros Et Ea. subst tau_fast alpha. rewrite Et, Ea. split.
    + change (Z.to_nat 1) with 1%nat.
      erewrite map_ext; [apply map_id|]. intros b.
      erewrite map_ext; [apply map_id|]. intros fr. apply strided_one.
    + intros n c t. change (Z.to_nat 1 * Z.to_nat 4)%nat with 4%nat.
      rewrite tensor5_frame_slice by lia. f_equal. lia.
Qed.

Lemma strided_len_of_nat (step : Z) (k : nat) :
  0 < step ->
  Z.of_nat ((k + (Z.to_nat step - 1)) / Z.to_nat step)
  = Torch.strided_len (Z.of_nat k) step.
Proof.
  intros Hs. unfold Torch.strided_len.
  rewrite Nat2Z.inj_div, Nat2Z.inj_add, Nat2Z.inj_sub by lia.
  rewrite Z2Nat.id by lia. f_equal. lia.
Qed.

Lemma strided_len_succ (step : Z) (k : nat) :
  0 < step ->
  Z.of_nat (S ((k + (Z.to_nat step - 1) - (Z.to_nat step - 1)) / Z.to_nat step))
  = Torch.strided_len (Z.of_nat (S k)) step.
Proof.
  intros Hs. unfold Torch.strided_len.
  replace (k + (Z.to_nat step - 1) - (Z.to_nat step - 1))%nat with k by lia.
  replace (Z.of_nat (S k) + step - 1) with (Z.of_nat k + 1 * step) by lia.
  rewrite Z.div_add by lia.
  rewrite Nat2Z.inj_succ, Nat2Z.inj_div, Z2Nat.id by lia. lia.
Qed.

(** The slicing of contents and the slicing of shapes agree. *)
Lemma tensor_size_slice_time {A : Type} (step : Z)
  (x : list (list (list (tensor A 2)))) :
  bind (@tensor5_slice_time A step x) (fun y => Ok (@tensor_size A 5 y))
  = Torch.slice_time step (@tensor_size A 5 x).
Proof.
  unfold tensor5_slice_time.
  destruct (0 <? step) eqn:E.
  - apply Z.ltb_lt in E. cbn [bind].
    assert (Hs : (0 < Z.to_nat step)%nat) by lia.
    assert (L0 : Torch.strided_len 0 step = 0).
    { unfold Torch.strided_len. apply Z.div_small. lia. }
    assert (E' : (0 <? step) = true) by (apply Z.ltb_lt; lia).
    destruct x as [|b x'];
      [|destruct b as [|fr b']; [|destruct fr as [|f fr']; [|destruct f as [|row f']]]];
      cbn [tensor_size Torch.slice_time repeat map strided];
      rewrite E'; cbn [length]; rewrite ?length_map;
      change (Z.of_nat 0) with 0; rewrite ?L0;
      try reflexivity.
    all: rewrite length_strided by assumption.
    all: rewrite strided_len_succ by lia; reflexivity.
  - cbn [bind].
    destruct x as [|b x'];
      [|destruct b as [|fr b']; [|destruct fr as [|f fr']; [|destruct f as [|row f']]]];
      cbn [tensor_size Torch.slice_time repeat map];
      rewrite E; reflexivity.
Qed.

(** ** Data flow of the models over tensors *)

Section DataFlow.

Variable T : Type.
Variable T_size : T -> shape.
Variable T_slice_time : Z -> T -> result T.
Variable T_cat1 : T -> T -> result T.
Variable T_zeros : shape -> result T.
Variable T_dropout : bool -> G -> T -> T * G.
Variable resnet50_s :
  Block -> list Z -> Z -> Z -> Z -> option Z -> T * list T -> result T.
Variable resnet50_f :
  Block -> list Z -> Z -> Z -> Z -> option Z -> T -> result (T * list T).
Variable T_Sequential : bool -> list seq_layer -> T -> result T.
Variable T_VideoSpatioEncoder_forward : VideoSpatioEncoder -> T -> result T.

Local Abbreviation split_slow_fast :=
  (SlowFastEncoder_split_slow_fast T T_slice_time).
Local Abbreviation slowfast_forward :=
  (SlowFastEncoder_forward T T_slice_time T_cat1).
Local Abbreviation slowfast_classifier_forward :=
  (SlowFastDisruptionClassifier_forward T T_slice_time T_cat1 T_Sequential).
Local Abbreviation slowfast_init :=
  (SlowFastEncoder_init T T_dropout resnet50_s resnet50_f).
Local Abbreviation slowfast_classifier_init :=
  (SlowFastDisruptionClassifier_init T T_size T_zeros T_slice_time T_cat1
     T_dropout resnet50_s resnet50_f).
Local Abbreviation sbert_classifier_forward :=
  (SBERTDisruptionClassifier_forward T T_size T_VideoSpatioEncoder_forward).

Lemma SlowFastEncoder_split_slow_fast_ok (self : SlowFastEncoder T)
  (x x_slow x_fast : T) :
  split_slow_fast self x = Ok (x_slow, x_fast) <->
  T_slice_time (sfe_tau_fast self * sfe_alpha self) x = Ok x_slow /\
  T_slice_time (sfe_tau_fast self) x = Ok x_fast.
Proof.
  unfold SlowFastEncoder_split_slow_fast. split.
  - intros H. bind_inv H. injection H as <- <-. auto.
  - intros [-> ->]. reflexivity.
Qed.

(** C3: [SlowFastEncoder.forward] returns a tensor exactly when the
    input splits into the slow stream (step [tau_fast * alpha] in time)
    and the fast stream (step [tau_fast]), the fast network maps the
    fast stream to features and laterals, the slow network maps the
    slow stream with those laterals to features, the slow and the fast
    features concatenate along dimension 1 in this order, and the
    result is the dropout of the concatenation.  The fast network comes
    first: when it fails, the forward pass fails with its error
    whatever the slow network would do. *)
Theorem SlowFastEncoder_forward_fusion_order (self : SlowFastEncoder T)
  (training : bool) (g : G) (x : T) :
  (forall (y : T) (g' : G),
     slowfast_forward self training g x = Ok (y, g') <->
     exists x_slow x_fast fast laterals slow c,
       T_slice_time (sfe_tau_fast self * sfe_alpha self) x = Ok x_slow /\
       T_slice_time (sfe_tau_fast self) x = Ok x_fast /\
       sfe_fastnet self x_fast = Ok (fast, laterals) /\
       sfe_slownet self (x_slow, laterals) = Ok slow /\
       T_cat1 slow fast = Ok c /\
       sfe_dropout self training g c = (y, g')) /\
  (forall x_slow x_fast e,
     split_slow_fast self x = Ok (x_slow, x_fast) ->
     sfe_fastnet self x_fast = Err e ->
     slowfast_forward self training g x = Err e).
Proof.
  split.
  - intros y g'. unfold SlowFastEncoder_forward. split.
    + intros H. apply bind_ok in H. destruct H as ([xs xf] & Hs & H).
      apply bind_ok in H. destruct H as ([f lat] & Hf & H).
      apply bind_ok in H. destruct H as (s & Hsl & H).
      apply bind_ok in H. destruct H as (c & Hc & H).
      injection H as H.
      apply SlowFastEncoder_split_slow_fast_ok in Hs. destruct Hs as [Hs1 Hs2].
      exists xs, xf, f, lat, s, c. auto 6.
    + intros (xs & xf & f & lat & s & c & H1 & H2 & H3 & H4 & H5 & H6).
      assert (Hs : split_slow_fast self x = Ok (xs, xf))
        by (apply SlowFastEncoder_split_slow_fast_ok; auto).
      rewrite Hs. cbn [bind]. rewrite H3. cbn [bind]. rewrite H4.
      cbn [bind]. rewrite H5. cbn [bind]. now rewrite H6.
  - intros xs xf e Hs Hf. unfold SlowFastEncoder_forward.
    rewrite Hs. cbn [bind]. rewrite Hf. reflexivity.
Qed.

(** *** The day-of-year ramp *)

Lemma length_range1 (stop : Z) : length (range1 stop) = Z.to_nat stop.
Proof. unfold range1. now rewrite length_map, length_seq. Qed.

Lemma nth_error_range1 (stop : Z) (i : nat) :
  (i < Z.to_nat stop)%nat ->
  nth_error (range1 stop) i = Some (Z.of_nat i + 1).
Proof.
  intros Hi. unfold range1. rewrite nth_error_map.
  rewrite nth_error_nth' with (d := 0%nat) by (rewrite length_seq; lia).
  rewrite seq_nth by lia. cbn [option_map]. f_equal. lia.
Qed.

Lemma IntTensor_ok (values row : list Z) :
  IntTensor values = Ok row -> row = values.
Proof.
  unfold IntTensor. destruct (forallb _ _); [|discriminate].
  intros H. now injection H.
Qed.

(** C6: [SBERTDisruptionClassifier.forward] returns [y] exactly when
    the spatial encoder maps [x] to some [x1], the sequence encoder
    called on [x1] with [doy] the ramp [1 .. max_len] repeated
    [x1.size(0)] times and with [mask = None] returns some [x2], and
    the head maps [x2] to [y].  Hence two sequence encoders that agree
    on all calls with such a [doy] and no mask give the same forward
    pass: no other [doy] and no mask reaches the encoder.  Entry [i]
    of every row of [doy] is [i + 1]. *)
Theorem SBERTDisruptionClassifier_forward_fixed_doy
  (self : SBERTDisruptionClassifier T) (x : T) :
  let max_len := sbert_max_len (sb_sbert self) in
  (forall y,
     sbert_classifier_forward self x = Ok y <->
     exists x1 n x2,
       T_VideoSpatioEncoder_forward (sb_spatio_encoder self) x = Ok x1 /\
       is_ok (IntTensor (range1 max_len)) = true /\
       Torch.size (T_size x1) 0 = Ok n /\
       sbert_forward (sb_sbert self) x1
         (repeat (range1 max_len) (Z.to_nat n)) None = Ok x2 /\
       sb_classifier self x2 = Ok y) /\
  (forall other : SBERT T,
     sbert_max_len other = max_len ->
     (forall x1 n,
        sbert_forward other x1 (repeat (range1 max_len) n) None
        = sbert_forward (sb_sbert self) x1 (repeat (range1 max_len) n) None) ->
     sbert_classifier_forward
       {| sb_spatio_encoder := sb_spatio_encoder self;
          sb_sbert := other;
          sb_classifier := sb_classifier self |} x
     = sbert_classifier_forward self x) /\
  (forall n row i,
     In row (repeat (range1 max_len) n) -> (i < Z.to_nat max_len)%nat ->
     length row = Z.to_nat max_len /\
     nth_error row i = Some (Z.of_nat i + 1)).
Proof.
  intros max_len. split; [|split].
  - intros y. unfold SBERTDisruptionClassifier_forward. fold max_len. split.
    + intros H. bind_inv H.
      assert (HI : is_ok (IntTensor (range1 max_len)) = true)
        by (rewrite E0; reflexivity).
      apply IntTensor_ok in E0. subst x1.
      exists x0, x2, x3. repeat split; auto.
    + intros (x1 & n & x2 & H1 & H2 & H3 & H4 & H5).
      rewrite H1. cbn [bind].
      destruct (IntTensor (range1 max_len)) as [row|] eqn:EI; [|discriminate].
      apply IntTensor_ok in EI. subst row.
      cbn [bind]. rewrite H3. cbn [bind].
      unfold repeat_rows. rewrite H4. exact H5.
  - intros other Hlen Hagree. unfold SBERTDisruptionClassifier_forward.
    cbn [sb_spatio_encoder sb_sbert sb_classifier]. rewrite Hlen.
    fold max_len.
    destruct (T_VideoSpatioEncoder_forward _ x) as [x1|]; [|reflexivity].
    cbn [bind].
    destruct (IntTensor (range1 max_len)) as [row|] eqn:EI; [|reflexivity].
    apply IntTensor_ok in EI. subst row. cbn [bind].
    destruct (Torch.size (T_size x1) 0) as [n|]; [|reflexivity].
    cbn [bind]. unfold repeat_rows. now rewrite Hagree.
  - intros n row i Hin Hi. apply repeat_spec in Hin. subst row.
    split; [apply length_range1|now apply nth_error_range1].
Qed.

(** *** Where failures come from *)




End DataFlow.

(** ** Shapes of the encoders *)



(** ** The batch dimension *)

Lemma batchwise_inv (f : list Z -> result (list Z)) (x out : shape) :
  batchwise f x = Ok out ->
  exists n item r, x = n :: item /\ f item = Ok r /\ out = n :: r.
Proof.
  unfold batchwise. destruct x as [|n item]; [discriminate|].
  intros H. bind_inv H. injection H as <-. eauto 6.
Qed.

Lemma batchwise_batch (f : list Z -> result (list Z)) (n : Z)
  (item : list Z) (out : shape) :
  batchwise f (n :: item) = Ok out -> exists r, out = n :: r.
Proof.
  intros H. apply batchwise_inv in H.
  destruct H as (n' & item' & r & Hx & _ & ->).
  injection Hx as <- <-. eauto.
Qed.

(** A layer sees the batch size only to pass it on. *)
Lemma batchwise_any_batch (f : list Z -> result (list Z)) (n m : Z)
  (item r : list Z) :
  batchwise f (n :: item) = Ok (n :: r) -> batchwise f (m :: item) = Ok (m :: r).
Proof.
  unfold batchwise. destruct (f item); cbn [bind]; [|discriminate].
  intros H. now injection H as <-.
Qed.

Lemma Layer_forward_inv (l : Layer) (x out : shape) :
  Layer_forward l x = Ok out ->
  exists n t h w r,
    x = [n; layer_in l; t; h; w] /\ layer_dims l [t; h; w] = Ok r /\
    out = n :: layer_out l :: r.
Proof.
  unfold Layer_forward. intros H. apply batchwise_inv in H.
  destruct H as (n & item & r & -> & H & ->).
  unfold conv_item in H.
  destruct item as [|c [|t [|h [|w [|]]]]]; try discriminate.
  destruct (c =? layer_in l) eqn:E; [|discriminate].
  apply Z.eqb_eq in E. subst c. bind_inv H. injection H as <-.
  exists n, t, h, w, x. auto.
Qed.

Lemma Layer_forward_any_batch (l : Layer) (n m : Z) (item r : list Z) :
  Layer_forward l (n :: item) = Ok (n :: r) ->
  Layer_forward l (m :: item) = Ok (m :: r).
Proof. apply batchwise_any_batch. Qed.

Lemma MaxPool3d_batch (k s p : Z * Z * Z) (n : Z) (item : list Z)
  (out : shape) :
  Torch.MaxPool3d k s p (n :: item) = Ok out -> exists r, out = n :: r.
Proof.
  destruct k as [[? ?] ?], s as [[? ?] ?], p as [[? ?] ?].
  unfold Torch.MaxPool3d.
  destruct item as [|c [|t [|h [|w [|]]]]]; try discriminate.
  intros H. bind_inv H. injection H as <-. eauto.
Qed.

Lemma Linear_batch (i o n d : Z) (r : list Z) (out : shape) :
  Torch.Linear i o (n :: d :: r) = Ok out ->
  exists d' r', out = n :: d' :: r'.
Proof.
  unfold Torch.Linear. cbn [rev].
  destruct (rev r ++ [d]) as [|z l] eqn:E.
  - now destruct (rev r).
  - cbn [app]. destruct (z =? i); [|discriminate].
    intros H. injection H as <-. cbn [rev].
    rewrite rev_app_distr. cbn [rev app].
    destruct (rev l ++ [o]) as [|d' r'] eqn:E'.
    + now destruct (rev l).
    + eauto.
Qed.

Lemma Linear_two (i o n : Z) : Torch.Linear i o [n; i] = Ok [n; o].
Proof. unfold Torch.Linear. cbn. now rewrite Z.eqb_refl. Qed.

Lemma BatchNorm1d_inv (c : Z) (training : bool) (x out : shape) :
  Torch.BatchNorm1d c training x = Ok out -> out = x.
Proof.
  unfold Torch.BatchNorm1d. destruct x as [|n [|c' r]]; try discriminate.
  destruct (negb _); [discriminate|].
  destruct (_ && _); [discriminate|].
  destruct (negb _); [discriminate|].
  intros H. now injection H.
Qed.

Lemma BatchNorm1d_two (c n : Z) (training : bool) :
  training = false \/ n <> 1 ->
  Torch.BatchNorm1d c training [n; c] = Ok [n; c].
Proof.
  intros H. unfold Torch.BatchNorm1d. cbn [length Nat.leb negb].
  replace (training && (n * Torch.numel [] =? 1)) with false;
    [rewrite Z.eqb_refl; reflexivity|].
  destruct H as [->|H]; [reflexivity|].
  unfold Torch.numel. cbn [fold_right].
  destruct training; [|reflexivity]. cbn [andb].
  symmetry. apply Z.eqb_neq. lia.
Qed.

Lemma seq_layer_forward_batch (training : bool) (l : seq_layer)
  (n d : Z) (r : list Z) (out : shape) :
  seq_layer_forward training l (n :: d :: r) = Ok out ->
  exists d' r', out = n :: d' :: r'.
Proof.
  destruct l; cbn [seq_layer_forward]; intros H.
  - eapply Linear_batch; eauto.
  - apply BatchNorm1d_inv in H. subst. eauto.
  - injection H as <-. eauto.
  - injection H as <-. eauto.
Qed.

Lemma Sequential_forward_batch (training : bool) (ls : list seq_layer) :
  forall (n d : Z) (r : list Z) (out : shape),
    Sequential_forward training ls (n :: d :: r) = Ok out ->
    exists d' r', out = n :: d' :: r'.
Proof.
  induction ls as [|l ls IH]; intros n d r out H; cbn [Sequential_forward] in H.
  - injection H as <-. eauto.
  - apply bind_ok in H. destruct H as (y & Hy & H).
    apply seq_layer_forward_batch in Hy. destruct Hy as (d' & r' & ->).
    eapply IH; eauto.
Qed.

Lemma Conv3dResBlock_forward_batch (b : Conv3dResBlock) (n : Z)
  (item : list Z) (out : shape) :
  Conv3dResBlock_forward b (n :: item) = Ok out -> exists r, out = n :: r.
Proof. apply batchwise_batch. Qed.

Lemma VideoSpatioEncoder_features_batch (input_shape : Z * Z * Z * Z)
  (n : Z) (item : list Z) (out : shape) :
  VideoSpatioEncoder_features (VideoSpatioEncoder_init input_shape) (n :: item)
  = Ok out ->
  exists r, out = n :: r.
Proof.
  destruct input_shape as [[[c t] h] w].
  unfold VideoSpatioEncoder_features, VideoSpatioEncoder_init.
  cbn [vse_conv_block1 vse_conv_block2 vse_conv_block3 vse_conv_block4
       vse_pooling_block1 vse_pooling_block2 vse_pooling_block3].
  intros H. bind_inv H.
  apply Conv3dResBlock_forward_batch in E. destruct E as (? & ->).
  apply MaxPool3d_batch in E0. destruct E0 as (? & ->).
  apply Conv3dResBlock_forward_batch in E1. destruct E1 as (? & ->).
  apply MaxPool3d_batch in E2. destruct E2 as (? & ->).
  apply Conv3dResBlock_forward_batch in E3. destruct E3 as (? & ->).
  apply MaxPool3d_batch in E4. destruct E4 as (? & ->).
  now apply Conv3dResBlock_forward_batch in H.
Qed.

Lemma VideoSpatioEncoder_forward_batch (input_shape : Z * Z * Z * Z)
  (n : Z) (item : list Z) (out : shape) :
  VideoSpatioEncoder_forward (VideoSpatioEncoder_init input_shape) (n :: item)
  = Ok out ->
  exists r, out = n :: r.
Proof.
  unfold VideoSpatioEncoder_forward. intros H.
  apply bind_ok in H. destruct H as (x & Hx & H).
  apply VideoSpatioEncoder_features_batch in Hx. destruct Hx as (r & ->).
  cbn [Torch.size nth_error bind] in H.
  now apply view_three_inv in H.
Qed.

Lemma Layer_forward_batch (l : Layer) (n : Z) (item : list Z) (out : shape) :
  Layer_forward l (n :: item) = Ok out ->
  exists r, out = n :: layer_out l :: r.
Proof.
  intros H. apply Layer_forward_inv in H.
  destruct H as (n' & t & h & w & r & Hx & _ & ->).
  injection Hx as <- _. eauto.
Qed.

(** On a successful pass through [R2Plus1DNet] the fifth layer returns
    512 channels, the pooling leaves one cell, and the reshape gives
    [(n, 512)]. *)
Lemma R2Plus1DNet_forward_inv (layer_sizes : list Z) (net : R2Plus1DNet)
  (n : Z) (item : list Z) (out : shape) :
  R2Plus1DNet_init layer_sizes = Ok net ->
  R2Plus1DNet_forward net (n :: item) = Ok out ->
  0 < n /\ out = [n; 512].
Proof.
  intros Hi H. unfold R2Plus1DNet_init in Hi. bind_inv Hi.
  injection Hi as <-. unfold R2Plus1DNet_forward in H.
  cbn [r2_conv1 r2_conv2 r2_conv3 r2_conv4 r2_conv5 r2_pool] in H.
  bind_step H b Hb. bind_step H y1 H1. bind_step H y2 H2.
  bind_step H y3 H3. bind_step H y4 H4. bind_step H y5 H5.
  bind_step H p Hp.
  cbn [Torch.size nth_error] in Hb. injection Hb as <-.
  apply Layer_forward_batch in H1. destruct H1 as (d1 & ->).
  apply Layer_forward_batch in H2. destruct H2 as (d2 & ->).
  apply Layer_forward_batch in H3. destruct H3 as (d3 & ->).
  apply Layer_forward_batch in H4. destruct H4 as (d4 & ->).
  apply Layer_forward_batch in H5. destruct H5 as (d5 & ->).
  cbn [layer_out SpatioTemporalResLayer] in Hp.
  unfold Torch.AdaptiveAvgPool3d_1 in Hp.
  destruct d5 as [|t5 [|h5 [|w5 [|]]]]; try discriminate.
  destruct (_ && _); [|discriminate]. injection Hp as <-.
  apply view_two_inv in H. destruct H as [Hn ->].
  split; [assumption|].
  do 2 f_equal. rewrite numel_cons.
  change (Torch.numel [512; 1; 1; 1]) with 512.
  rewrite Z.mul_comm. apply Z.div_mul. lia.
Qed.

(** If [R2Plus1DNet] accepts one batch of items it accepts every
    non-empty batch of such items. *)
Lemma R2Plus1DNet_forward_any_batch (layer_sizes : list Z)
  (net : R2Plus1DNet) (n m : Z) (item : list Z) (out : shape) :
  R2Plus1DNet_init layer_sizes = Ok net ->
  R2Plus1DNet_forward net (n :: item) = Ok out ->
  0 < m ->
  R2Plus1DNet_forward net (m :: item) = Ok [m; 512].
Proof.
  intros Hi H Hm. unfold R2Plus1DNet_init in Hi. bind_inv Hi.
  injection Hi as <-. unfold R2Plus1DNet_forward in *.
  cbn [r2_conv1 r2_conv2 r2_conv3 r2_conv4 r2_conv5 r2_pool] in *.
  bind_step H b Hb. bind_step H y1 H1. bind_step H y2 H2.
  bind_step H y3 H3. bind_step H y4 H4. bind_step H y5 H5.
  bind_step H p Hp.
  cbn [Torch.size nth_error] in Hb. injection Hb as <-.
  cbn [Torch.size nth_error bind].
  destruct (Layer_forward_batch _ _ _ _ H1) as (d1 & ->).
  rewrite (Layer_forward_any_batch _ _ m _ _ H1). cbn [bind].
  destruct (Layer_forward_batch _ _ _ _ H2) as (d2 & ->).
  rewrite (Layer_forward_any_batch _ _ m _ _ H2). cbn [bind].
  destruct (Layer_forward_batch _ _ _ _ H3) as (d3 & ->).
  rewrite (Layer_forward_any_batch _ _ m _ _ H3). cbn [bind].
  destruct (Layer_forward_batch _ _ _ _ H4) as (d4 & ->).
  rewrite (Layer_forward_any_batch _ _ m _ _ H4). cbn [bind].
  destruct (Layer_forward_batch _ _ _ _ H5) as (d5 & ->).
  rewrite (Layer_forward_any_batch _ _ m _ _ H5). cbn [bind].
  cbn [layer_out SpatioTemporalResLayer] in *.
  unfold Torch.AdaptiveAvgPool3d_1 in *.
  destruct d5 as [|t5 [|h5 [|w5 [|]]]]; try discriminate.
  destruct (_ && _); [|discriminate]. cbn [bind].
  rewrite view_two; [|assumption|].
  - do 3 f_equal. rewrite numel_cons.
    change (Torch.numel [512; 1; 1; 1]) with 512.
    rewrite Z.mul_comm. apply Z.div_mul. lia.
  - rewrite numel_cons. change (Torch.numel [512; 1; 1; 1]) with 512.
    rewrite Z.mul_comm. apply Z.mod_mul. lia.
Qed.

(** The head of [R2Plus1DClassifier] on an encoder output. *)
Lemma R2Plus1DClassifier_head (training : bool) (n num_classes : Z) :
  training = false \/ n <> 1 ->
  Sequential_forward training
    [SLinear 512 128; SBatchNorm1d 128; SLeakyReLU; SLinear 128 num_classes]
    [n; 512]
  = Ok [n; num_classes].
Proof.
  intros H. cbn [Sequential_forward seq_layer_forward].
  rewrite Linear_two. cbn [bind].
  rewrite BatchNorm1d_two by assumption. cbn [bind Torch.elementwise].
  now rewrite Linear_two.
Qed.

(** What the constructor of [R2Plus1DClassifier] leaves in the fields
    that the forward pass reads. *)
Lemma R2Plus1DClassifier_init_inv (input_size : Z * Z * Z * Z)
  (num_classes : Z) (layer_sizes : list Z) (pretrained : bool) (g g' : G)
  (self : R2Plus1DClassifier) (printed : list Line) :
  R2Plus1DClassifier_init input_size num_classes layer_sizes pretrained g
  = Ok (self, g', printed) ->
  exists net enc head g1,
    R2Plus1DNet_init layer_sizes = Ok net /\
    Torch.zeros (with_batch 1 input_size) = Ok (with_batch 1 input_size) /\
    R2Plus1DNet_forward net (with_batch 1 input_size) = Ok [1; 512] /\
    init_weight_children R r0 r1 G kaiming_normal_ g (r2_modules net)
    = Ok (enc, g1) /\
    init_weight_module R r0 r1 G kaiming_normal_ g1
      (Sequential_modules
         [SLinear 512 128; SBatchNorm1d 128; SLeakyReLU;
          SLinear 128 num_classes])
    = Ok (head, g') /\
    self =
      {| rc_input_size := input_size;
         rc_res2plus1d :=
           {| r2_conv1 := r2_conv1 net; r2_conv2 := r2_conv2 net;
              r2_conv3 := r2_conv3 net; r2_conv4 := r2_conv4 net;
              r2_conv5 := r2_conv5 net; r2_pool := r2_pool net;
              r2_modules := enc |};
         rc_linear :=
           [SLinear 512 128; SBatchNorm1d 128; SLeakyReLU;
            SLinear 128 num_classes];
         rc_linear_modules := head |}.
Proof.
  unfold R2Plus1DClassifier_init. intros H.
  bind_step H net Hnet. bind_step H out Hout. bind_step H dims Hdims.
  unfold R2Plus1DClassifier_get_res2plus1d_output_size in Hout.
  bind_step Hout sample Hs.
  assert (sample = with_batch 1 input_size) as ->.
  { unfold Torch.zeros in Hs. destruct (forallb _ _); [|discriminate].
    now injection Hs. }
  pose proof Hs as Hzeros.
  assert (Hw : with_batch 1 input_size
               = 1 :: (let '(c, t, h, w) := input_size in [c; t; h; w]))
    by now destruct input_size as [[[? ?] ?] ?].
  rewrite Hw in Hout.
  destruct (R2Plus1DNet_forward_inv _ _ _ _ _ Hnet Hout) as [_ ->].
  rewrite <- Hw in Hout.
  cbn [Torch.size nth_error] in Hdims. injection Hdims as <-.
  apply bind_ok in H. destruct H as ([self' g2] & Hiw & H).
  unfold R2Plus1DClassifier_init_weight in Hiw.
  cbn [rc_res2plus1d rc_linear_modules rc_input_size rc_linear] in Hiw.
  apply bind_ok in Hiw. destruct Hiw as ([enc g1] & Henc & Hiw).
  apply bind_ok in Hiw. destruct Hiw as ([head g3] & Hhead & Hiw).
  injection Hiw as <- <-.
  exists net, enc, head, g1.
  destruct pretrained; injection H as <- <- _; auto 7.
Qed.

Lemma lateral_items_cons (n : Z) (lats : list (list Z)) :
  lateral_items n (map (cons n) lats) = Ok lats.
Proof.
  induction lats as [|l lats IH]; cbn [map lateral_items]; [reflexivity|].
  rewrite Z.eqb_refl, IH. reflexivity.
Qed.

(** The slow-fast encoder on shapes: the output has the batch size of
    the input and at least one more dimension, and the other dimensions
    do not depend on the batch size. *)
Lemma shape_SlowFastEncoder_forward_inv (input_shape : Z * Z * Z * Z)
  (block : Block) (layers : list Z) (alpha tau_fast : Z)
  (base_bn_splits : option Z) (training : bool) (g g' : G) (n : Z)
  (item : list Z) (out : shape) :
  let self :=
    shape_SlowFastEncoder_init input_shape block layers alpha tau_fast
      base_bn_splits in
  shape_SlowFastEncoder_forward self training g (n :: item) = Ok (out, g') ->
  exists c r,
    out = n :: c :: r /\ g' = g /\
    forall m training0 g0,
      shape_SlowFastEncoder_forward self training0 g0 (m :: item)
      = Ok (m :: c :: r, g0).
Proof.
  intros self.
  unfold shape_SlowFastEncoder_forward, SlowFastEncoder_forward,
    SlowFastEncoder_split_slow_fast.
  assert (Hf : sfe_fastnet self
               = shape_resnet50_f block layers alpha
                   (let '(c, _, _, _) := input_shape in c) 0 base_bn_splits).
  { unfold self, shape_SlowFastEncoder_init, SlowFastEncoder_init.
    now destruct input_shape as [[[? ?] ?] ?]. }
  assert (Hs : sfe_slownet self
               = shape_resnet50_s block layers alpha
                   (let '(c, _, _, _) := input_shape in c) 1 base_bn_splits).
  { unfold self, shape_SlowFastEncoder_init, SlowFastEncoder_init.
    now destruct input_shape as [[[? ?] ?] ?]. }
  assert (Hd : sfe_dropout self = shape_dropout).
  { unfold self, shape_SlowFastEncoder_init, SlowFastEncoder_init.
    now destruct input_shape as [[[? ?] ?] ?]. }
  rewrite Hf, Hs, Hd.
  set (ts := sfe_tau_fast self * sfe_alpha self).
  set (tf := sfe_tau_fast self).
  set (ci := let '(c, _, _, _) := input_shape in c).
  unfold Torch.slice_time.
  destruct item as [|c [|t [|h [|w rest]]]]; try discriminate.
  destruct (0 <? ts); [|discriminate]. cbn [bind].
  destruct (0 <? tf); [|discriminate]. cbn [bind].
  unfold shape_resnet50_f.
  destruct (resnet50_f_item _ _ _ _ _ _ _) as [[o lats]|]; [|discriminate].
  cbn [bind]. unfold shape_resnet50_s. cbn [fst snd].
  rewrite !lateral_items_cons. cbn [bind].
  destruct (resnet50_s_item _ _ _ _ _ _ _ _) as [os|] eqn:Eos; [|discriminate].
  cbn [bind]. unfold Torch.cat1.
  destruct os as [|cs rs]; [discriminate|].
  destruct o as [|cf rf]; [discriminate|].
  rewrite !Z.eqb_refl. cbn [andb].
  destruct (list_eq_dec Z.eq_dec rs rf) as [Er|]; [|discriminate].
  cbn [bind]. unfold shape_dropout. intros H. injection H as <- <-.
  exists (cs + cf), rs. split; [reflexivity|]. split; [reflexivity|].
  intros m training0 g0. rewrite lateral_items_cons. cbn [bind].
  rewrite Eos. cbn [bind]. rewrite Z.eqb_refl. cbn [andb].
  destruct (list_eq_dec Z.eq_dec rs rf); [reflexivity|contradiction].
Qed.

Lemma ResNet50_forward_inv (block : Block) (layers : list Z)
  (alpha in_channels n : Z) (item : list Z) (out : shape) :
  ResNet50_forward (ResNet50_init block layers alpha in_channels) (n :: item)
  = Ok out ->
  exists r,
    out = n :: r /\
    forall m,
      ResNet50_forward (ResNet50_init block layers alpha in_channels)
        (m :: item) = Ok (m :: r).
Proof.
  unfold ResNet50_forward, ResNet50_init.
  cbn [rn_layer0 rn_layer1 rn_layer2 rn_layer3 rn_layer4].
  intros H.
  bind_step H y0 H0. bind_step H y1 H1. bind_step H y2 H2. bind_step H y3 H3.
  destruct (batchwise_batch _ _ _ _ H0) as (d0 & ->).
  destruct (batchwise_batch _ _ _ _ H1) as (d1 & ->).
  destruct (batchwise_batch _ _ _ _ H2) as (d2 & ->).
  destruct (batchwise_batch _ _ _ _ H3) as (d3 & ->).
  destruct (batchwise_batch _ _ _ _ H) as (d4 & ->).
  exists d4. split; [reflexivity|]. intros m.
  rewrite (batchwise_any_batch _ _ m _ _ H0). cbn [bind].
  rewrite (batchwise_any_batch _ _ m _ _ H1). cbn [bind].
  rewrite (batchwise_any_batch _ _ m _ _ H2). cbn [bind].
  rewrite (batchwise_any_batch _ _ m _ _ H3). cbn [bind].
  exact (batchwise_any_batch _ _ m _ _ H).
Qed.




Lemma R2Plus1DClassifier_forward_batch (input_size : Z * Z * Z * Z)
  (num_classes : Z) (layer_sizes : list Z) (pretrained : bool) (g g' : G)
  (self : R2Plus1DClassifier) (printed : list Line) (training : bool)
  (n : Z) (item : list Z) (out : shape) :
  R2Plus1DClassifier_init input_size num_classes layer_sizes pretrained g
  = Ok (self, g', printed) ->
  R2Plus1DClassifier_forward self training (n :: item) = Ok out ->
  out = [n; num_classes].
Proof.
  intros Hi H. apply R2Plus1DClassifier_init_inv in Hi.
  destruct Hi as (net & enc & head & g1 & Hnet & _ & _ & _ & _ & ->).
  unfold R2Plus1DClassifier_forward in H. cbn [rc_res2plus1d rc_linear] in H.
  change (R2Plus1DNet_forward
            {| r2_conv1 := r2_conv1 net; r2_conv2 := r2_conv2 net;
               r2_conv3 := r2_conv3 net; r2_conv4 := r2_conv4 net;
               r2_conv5 := r2_conv5 net; r2_pool := r2_pool net;
               r2_modules := enc |})
    with (R2Plus1DNet_forward net) in H.
  bind_step H y Hy.
  destruct (R2Plus1DNet_forward_inv _ _ _ _ _ Hnet Hy) as [_ ->].
  cbn [Sequential_forward seq_layer_forward] in H.
  rewrite Linear_two in H. cbn [bind] in H.
  bind_step H z Hz. apply BatchNorm1d_inv in Hz. subst z.
  cbn [bind Torch.elementwise] in H. rewrite Linear_two in H.
  cbn [bind] in H. now injection H.
Qed.

Lemma shape_SlowFastDisruptionClassifier_forward_batch
  (input_shape : Z * Z * Z * Z) (block : Block) (layers : list Z)
  (alpha mlp_hidden num_classes tau_fast : Z) (base_bn_splits : option Z)
  (g g' g0 g1 : G) (self : SlowFastDisruptionClassifier shape)
  (training : bool) (n : Z) (item : list Z) (out : shape) :
  shape_SlowFastDisruptionClassifier_init input_shape block layers alpha
    mlp_hidden num_classes tau_fast base_bn_splits g = Ok (self, g') ->
  shape_SlowFastDisruptionClassifier_forward self training g0 (n :: item)
  = Ok (out, g1) ->
  exists r, out = n :: r.
Proof.
  intros Hi H.
  unfold shape_SlowFastDisruptionClassifier_init,
    SlowFastDisruptionClassifier_init in Hi.
  apply bind_ok in Hi. destruct Hi as ([probe g2] & _ & Hi).
  bind_step Hi d Hd. injection Hi as <- _.
  unfold shape_SlowFastDisruptionClassifier_forward,
    SlowFastDisruptionClassifier_forward in H.
  cbn [sdc_slowfast sdc_classifier] in H.
  apply bind_ok in H. destruct H as ([y g3] & Hy & H).
  apply shape_SlowFastEncoder_forward_inv in Hy.
  destruct Hy as (c & r & -> & _ & _).
  bind_step H z Hz. injection H as <- _.
  apply Sequential_forward_batch in Hz. destruct Hz as (d' & r' & ->). eauto.
Qed.

Lemma shape_SBERTDisruptionClassifier_forward_batch
  (input_shape : Z * Z * Z * Z) (max_len num_features mlp_hidden
  num_classes : Z) (self : SBERTDisruptionClassifier shape) (n : Z)
  (item : list Z) (out : shape) :
  shape_SBERTDisruptionClassifier_init (VideoSpatioEncoder_init input_shape)
    (shape_SBERT max_len num_features) mlp_hidden num_classes = Ok self ->
  shape_SBERTDisruptionClassifier_forward self (n :: item) = Ok out ->
  exists r, out = n :: r.
Proof.
  intros Hi H.
  unfold shape_SBERTDisruptionClassifier_init,
    SBERTDisruptionClassifier_init in Hi.
  bind_step Hi d Hd. injection Hi as <-.
  unfold shape_SBERTDisruptionClassifier_forward,
    SBERTDisruptionClassifier_forward in H.
  cbn [sb_spatio_encoder sb_sbert sb_classifier sbert_max_len sbert_forward
       shape_SBERT] in H.
  bind_step H y Hy. apply VideoSpatioEncoder_forward_batch in Hy.
  destruct Hy as (r & ->).
  bind_step H row Hrow. bind_step H k Hk. bind_step H z Hz.
  apply batchwise_batch in Hz. destruct Hz as (r' & ->).
  unfold shape_MulticlassClassifier in H.
  now apply batchwise_batch in H.
Qed.

Lemma Unet3DClassifier_forward_batch (input_shape : Z * Z * Z * Z)
  (Unet3D_class feats mlp_hidden num_classes alpha : Z)
  (resnet_layers : list Z) (self : Unet3DClassifier) (training : bool)
  (n : Z) (item : list Z) (out : shape) :
  Unet3DClassifier_init input_shape Unet3D_class feats mlp_hidden num_classes
    alpha resnet_layers = Ok self ->
  Unet3DClassifier_forward self training (n :: item) = Ok out ->
  exists r, out = n :: r.
Proof.
  intros Hi H. unfold Unet3DClassifier_init in Hi.
  bind_step Hi e He. bind_step Hi c Hc. bind_step Hi o Ho.
  bind_step Hi d Hd. injection Hi as <-.
  unfold Unet3DClassifier_forward in H.
  cbn [uc_spatio_encoder uc_resnet uc_classifier] in H.
  bind_step H y Hy. apply batchwise_batch in Hy. destruct Hy as (r & ->).
  bind_step H z Hz. apply ResNet50_forward_inv in Hz.
  destruct Hz as (r' & -> & _).
  bind_step H f Hf. unfold Torch.flatten1 in Hf.
  destruct r' as [|d' r']; [discriminate|]. injection Hf as <-.
  apply Sequential_forward_batch in H. destruct H as (? & ? & ->). eauto.
Qed.

Lemma SITSBertSpatialEncoder_forward_batch (input_shape : Z * Z * Z * Z)
  (alpha : Z) (layers : list Z) (block : Block) (n : Z) (item : list Z)
  (out : shape) :
  SITSBertSpatialEncoder_forward
    (SITSBertSpatialEncoder_init input_shape alpha layers block) (n :: item)
  = Ok out ->
  exists r, out = n :: r.
Proof.
  destruct input_shape as [[[c t] h] w].
  unfold SITSBertSpatialEncoder_forward, SITSBertSpatialEncoder_init.
  cbn [sse_resnet sse_seq_len]. intros H.
  bind_step H y Hy. apply ResNet50_forward_inv in Hy.
  destruct Hy as (r & -> & _).
  cbn [Torch.size nth_error bind] in H. now apply view_three_inv in H.
Qed.

Lemma VideoSpatialEncoder_forward_batch (input_shape : Z * Z * Z * Z)
  (block : Block) (layers : list Z)
  (in_channels num_classes alpha slow t2s_mul : Z) (n : Z) (item : list Z)
  (out : shape) :
  VideoSpatialEncoder_forward
    (VideoSpatialEncoder_init input_shape block layers in_channels
       num_classes alpha slow t2s_mul) (n :: item) = Ok out ->
  exists r, out = n :: r.
Proof.
  destruct input_shape as [[[c t] h] w].
  unfold VideoSpatialEncoder_forward, VideoSpatialEncoder_init.
  cbn [vsp_resnet vsp_seq_len]. intros H.
  bind_step H y0 H0. apply batchwise_batch in H0. destruct H0 as (? & ->).
  bind_step H y1 H1. apply batchwise_batch in H1. destruct H1 as (? & ->).
  bind_step H y2 H2. apply batchwise_batch in H2. destruct H2 as (? & ->).
  bind_step H y3 H3. apply batchwise_batch in H3. destruct H3 as (? & ->).
  bind_step H y4 H4. apply batchwise_batch in H4. destruct H4 as (? & ->).
  bind_step H y5 H5. apply batchwise_batch in H5. destruct H5 as (? & ->).
  bind_step H y6 H6. apply batchwise_batch in H6. destruct H6 as (? & ->).
  bind_step H y7 H7. apply batchwise_batch in H7. destruct H7 as (r7 & ->).
  bind_step H p Hp. unfold Torch.AdaptiveAvgPool3d_1 in Hp.
  destruct r7 as [|c7 [|t7 [|h7 [|w7 [|]]]]]; try discriminate.
  destruct (_ && _); [|discriminate]. injection Hp as <-.
  cbn [Torch.elementwise Torch.size nth_error bind] in H.
  now apply view_three_inv in H.
Qed.

Lemma MNIST_Net_forward_batch (n : Z) (item : list Z) (out : shape) :
  MNIST_Net_forward (n :: item) = Ok out -> out = [n; 10].
Proof.
  unfold MNIST_Net_forward. cbn [Torch.size nth_error bind].
  intros H.
  bind_step H y0 H0. bind_step H y1 H1. bind_step H y2 H2.
  bind_step H y3 H3. bind_step H y4 H4. bind_step H y5 H5.
  bind_step H y6 H6. bind_step H y7 H7. bind_step H y8 H8.
  apply view_two_inv in H8. destruct H8 as [Hn ->].
  bind_step H z1 Hz1. bind_step H z2 Hz2. bind_step H z3 Hz3.
  bind_step H z4 Hz4.
  unfold Torch.Linear in Hz1. cbn [rev app] in Hz1.
  destruct (_ =? 320); [|discriminate]. injection Hz1 as <-.
  cbn [rev app Torch.elementwise] in *.
  injection Hz2 as <-. injection Hz3 as <-.
  rewrite Linear_two in Hz4. injection Hz4 as <-.
  cbn [Torch.log_softmax1] in H. now injection H.
Qed.

(** C9: every forward pass keeps the leading batch dimension.  For an
    input whose first dimension is [n], whatever a forward pass returns
    has first dimension [n]; [R2Plus1DNet.forward] returns [(n, 512)], and
    if it accepts one batch of items it accepts every batch of [m >= 1]
    such items, returning [(m, 512)]. *)
Theorem forward_preserves_batch_dimension (n : Z) (item : list Z)
  (out : shape) :
  (forall layer_sizes net,
     R2Plus1DNet_init layer_sizes = Ok net ->
     (R2Plus1DNet_forward net (n :: item) = Ok out -> out = [n; 512]) /\
     (forall m,
        R2Plus1DNet_forward net (n :: item) = Ok out -> 0 < m ->
        R2Plus1DNet_forward net (m :: item) = Ok [m; 512])) /\
  (forall input_shape,
     VideoSpatioEncoder_forward (VideoSpatioEncoder_init input_shape)
       (n :: item) = Ok out ->
     exists r, out = n :: r) /\
  (forall input_shape block layers alpha tau_fast base_bn_splits training g g',
     shape_SlowFastEncoder_forward
       (shape_SlowFastEncoder_init input_shape block layers alpha tau_fast
          base_bn_splits) training g (n :: item) = Ok (out, g') ->
     exists r, out = n :: r) /\
  (forall input_size num_classes layer_sizes pretrained g g' self printed
          training,
     R2Plus1DClassifier_init input_size num_classes layer_sizes pretrained g
     = Ok (self, g', printed) ->
     R2Plus1DClassifier_forward self training (n :: item) = Ok out ->
     out = [n; num_classes]) /\
  (forall input_shape block layers alpha mlp_hidden num_classes tau_fast
          base_bn_splits g g' g0 g1 self training,
     shape_SlowFastDisruptionClassifier_init input_shape block layers alpha
       mlp_hidden num_classes tau_fast base_bn_splits g = Ok (self, g') ->
     shape_SlowFastDisruptionClassifier_forward self training g0 (n :: item)
     = Ok (out, g1) ->
     exists r, out = n :: r) /\
  (forall input_shape max_len num_features mlp_hidden num_classes self,
     shape_SBERTDisruptionClassifier_init (VideoSpatioEncoder_init input_shape)
       (shape_SBERT max_len num_features) mlp_hidden num_classes = Ok self ->
     shape_SBERTDisruptionClassifier_forward self (n :: item) = Ok out ->
     exists r, out = n :: r) /\
  (forall input_shape Unet3D_class feats mlp_hidden num_classes alpha
          resnet_layers self training,
     Unet3DClassifier_init input_shape Unet3D_class feats mlp_hidden
       num_classes alpha resnet_layers = Ok self ->
     Unet3DClassifier_forward self training (n :: item) = Ok out ->
     exists r, out = n :: r) /\
  (forall block layers alpha in_channels,
     ResNet50_forward (ResNet50_init block layers alpha in_channels)
       (n :: item) = Ok out ->
     exists r, out = n :: r) /\
  (forall input_shape alpha layers block,
     SITSBertSpatialEncoder_forward
       (SITSBertSpatialEncoder_init input_shape alpha layers block)
       (n :: item) = Ok out ->
     exists r, out = n :: r) /\
  (forall input_shape block layers in_channels num_classes alpha slow t2s_mul,
     VideoSpatialEncoder_forward
       (VideoSpatialEncoder_init input_shape block layers in_channels
          num_classes alpha slow t2s_mul) (n :: item) = Ok out ->
     exists r, out = n :: r) /\
  (MNIST_Net_forward (n :: item) = Ok out -> out = [n; 10]).
Proof.
  repeat match goal with |- _ /\ _ => split end.
  - intros layer_sizes net Hi. split.
    + intros H. now destruct (R2Plus1DNet_forward_inv _ _ _ _ _ Hi H).
    + intros m H Hm. eapply R2Plus1DNet_forward_any_batch; eauto.
  - intros input_shape. apply VideoSpatioEncoder_forward_batch.
  - intros input_shape block layers alpha tau_fast base_bn_splits training
      g g' H.
    apply shape_SlowFastEncoder_forward_inv in H.
    destruct H as (c & r & -> & _). eauto.
  - intros. eapply R2Plus1DClassifier_forward_batch; eauto.
  - intros. eapply shape_SlowFastDisruptionClassifier_forward_batch; eauto.
  - intros. eapply shape_SBERTDisruptionClassifier_forward_batch; eauto.
  - intros. eapply Unet3DClassifier_forward_batch; eauto.
  - intros block layers alpha in_channels H.
    apply ResNet50_forward_inv in H. destruct H as (r & -> & _). eauto.
  - intros. eapply SITSBertSpatialEncoder_forward_batch; eauto.
  - intros. eapply VideoSpatialEncoder_forward_batch; eauto.
  - apply MNIST_Net_forward_batch.
Qed.

(** ** Weight initialisation *)

Lemma nnmodule_ind_nested (P : nnmodule R -> Prop) :
  (forall c w b ch, Forall P ch -> P (NNModule c w b ch)) ->
  forall m, P m.
Proof.
  intros Hstep. fix IH 1. intros [c w b ch]. apply Hstep.
  induction ch as [|x r IHr]; constructor; [apply IH|exact IHr].
Qed.






(** * Further properties of the code *)

(** Forget the layers that a statement does not mention. *)
Ltac clear_unused := repeat match goal with H : _ |- _ => clear H end.

(** ** Splitting into the slow and the fast stream *)

(** X1: [SlowFastEncoder.split_slow_fast] returns exactly when
    [tau_fast] and [alpha] are both positive; otherwise one of its two
    slices has a step that is not positive and it fails with the
    framework's [ValueError].  Two negative values do not cancel: the
    product is a valid step for the slow stream, but the fast slice still
    fails. *)
Theorem SlowFastEncoder_split_slow_fast_succeeds_iff {A : Type}
  (self : SlowFastEncoder (tensor A 5)) (x : tensor A 5) :
  (is_ok (SlowFastEncoder_split_slow_fast (tensor A 5) tensor5_slice_time
            self x) = true <->
   0 < sfe_tau_fast self /\ 0 < sfe_alpha self) /\
  (~ (0 < sfe_tau_fast self /\ 0 < sfe_alpha self) ->
   SlowFastEncoder_split_slow_fast (tensor A 5) tensor5_slice_time self x
   = Err (ValueError OpSlice)).
Proof using Type.
  unfold SlowFastEncoder_split_slow_fast, tensor5_slice_time.
  destruct (Z.ltb_spec 0 (sfe_tau_fast self * sfe_alpha self)) as [Hp|Hp];
    destruct (Z.ltb_spec 0 (sfe_tau_fast self)) as [Ht|Ht]; cbn [bind is_ok].
  - split; [|intros H; exfalso; apply H; split; nia].
    split; [intros _; split; nia|reflexivity].
  - split; [|reflexivity].
    split; [discriminate|intros [H _]; lia].
  - split; [|reflexivity].
    split; [discriminate|intros [H1 H2]; nia].
  - split; [|reflexivity].
    split; [discriminate|intros [H _]; lia].
Qed.

(** X2: after [SlowFastEncoder.split_slow_fast], a channel that has [k]
    frames in the fast stream has [ceil (k / alpha)] frames in the slow
    stream, never more than [k]; if it has a frame at all, both streams
    start with the same frame, and when [k <= alpha] that frame is the only
    one of the slow stream. *)
Theorem SlowFastEncoder_split_slow_fast_frame_counts {A : Type}
  (self : SlowFastEncoder (tensor A 5)) (x x_slow x_fast : tensor A 5)
  (n c k : nat) :
  SlowFastEncoder_split_slow_fast (tensor A 5) tensor5_slice_time self x
  = Ok (x_slow, x_fast) ->
  tensor5_frames x_fast n c = Some k ->
  let alpha := Z.to_nat (sfe_alpha self) in
  let k_slow := ((k + (alpha - 1)) / alpha)%nat in
  tensor5_frames x_slow n c = Some k_slow /\
  (k_slow <= k)%nat /\
  ((0 < k)%nat ->
   (0 < k_slow)%nat /\
   tensor5_frame x_slow n c 0 = tensor5_frame x_fast n c 0) /\
  ((0 < k <= alpha)%nat -> k_slow = 1%nat).
Proof using Type.
  intros Hs Hk alpha k_slow.
  unfold SlowFastEncoder_split_slow_fast, tensor5_slice_time in Hs.
  destruct (Z.ltb_spec 0 (sfe_tau_fast self * sfe_alpha self)) as [Hp|Hp];
    [|discriminate].
  destruct (Z.ltb_spec 0 (sfe_tau_fast self)) as [Ht|Ht]; [|discriminate].
  cbn [bind] in Hs. injection Hs as Hxs Hxf.
  assert (Ha : 0 < sfe_alpha self) by nia.
  assert (Han : (0 < alpha)%nat) by (subst alpha; lia).
  assert (Htn : (0 < Z.to_nat (sfe_tau_fast self))%nat) by lia.
  assert (Hslow :
    x_slow = map (map (strided alpha 0))
               (x_fast : list (list (list (tensor A 2))))).
  { rewrite <- Hxs, <- Hxf.
    match goal with
    | |- context [strided (Z.to_nat ?p) 0] =>
        change p with (sfe_tau_fast self * sfe_alpha self)
    end.
    rewrite Z2Nat.inj_mul by lia. fold alpha.
    rewrite map_map. apply map_ext. intros b.
    rewrite map_map. apply map_ext. intros fr.
    now rewrite strided_compose. }
  rewrite Hslow. clear Hxs Hxf Hslow.
  assert (Hle : (k_slow <= k)%nat).
  { subst k_slow. destruct k as [|k'].
    - rewrite Nat.div_small by lia. lia.
    - apply Nat.Div0.div_le_upper_bound. nia. }
  split; [now apply tensor5_frames_slice|]. split; [exact Hle|]. split.
  - intros Hk0. split.
    + subst k_slow. apply Nat.div_str_pos. lia.
    + now rewrite tensor5_frame_slice.
  - intros [Hk0 Hka]. subst k_slow.
    assert (H1 : (k + (alpha - 1) = 1 * alpha + (k - 1))%nat) by lia.
    rewrite H1, Nat.div_add_l by lia.
    rewrite (Nat.div_small (k - 1)) by lia. lia.
Qed.

(** ** Reshapes and the configured sequence length *)

Lemma view_three_full_inv (s : shape) (a b : Z) (out : shape) :
  Torch.view s [a; b; -1] = Ok out ->
  0 < a /\ 0 < b /\ Torch.numel s mod (a * b) = 0 /\
  out = [a; b; Torch.numel s / (a * b)].
Proof using Type.
  view_norm.
  destruct (Z.leb_spec (-1) a) as [Ha|Ha]; cbn [negb andb]; [|discriminate].
  destruct (Z.leb_spec (-1) b) as [Hb|Hb]; cbn [negb andb]; [|discriminate].
  destruct (Z.eqb_spec a (-1)) as [Ea|Ea]; cbn [negb filter length];
    destruct (Z.eqb_spec b (-1)) as [Eb|Eb]; cbn [negb filter length];
    try (change (1 <? Z.of_nat 3 - Z.of_nat 0) with true; discriminate);
    try (change (1 <? Z.of_nat 3 - Z.of_nat 1) with true; discriminate).
  change (1 <? Z.of_nat 3 - Z.of_nat 2) with false. cbv iota.
  rewrite numel_two, !orb_true_r. cbn [andb].
  destruct (Z.eqb_spec (a * b) 0) as [E0|E0].
  - destruct (_ || _); discriminate.
  - destruct (Z.eqb_spec (Torch.numel s) (a * b)) as [En|En]; cbn [orb].
    + intros H. injection H as <-.
      assert (0 < a /\ 0 < b) as [Ha' Hb'] by nia.
      repeat split; try assumption. rewrite En. apply Z_mod_same_full.
    + destruct (Z.ltb_spec 0 (a * b)) as [Hp|Hp]; cbn [andb]; [|discriminate].
      destruct (Z.eqb_spec (Torch.numel s mod (a * b)) 0) as [Em|Em];
        [|discriminate].
      intros H. injection H as <-.
      assert (0 < a /\ 0 < b) as [Ha' Hb'] by nia.
      repeat split; assumption.
Qed.

Lemma MaxPool3d_any_batch (k s p : Z * Z * Z) (n m : Z) (item r : list Z) :
  Torch.MaxPool3d k s p (n :: item) = Ok (n :: r) ->
  Torch.MaxPool3d k s p (m :: item) = Ok (m :: r).
Proof using Type.
  destruct k as [[? ?] ?], s as [[? ?] ?], p as [[? ?] ?].
  unfold Torch.MaxPool3d.
  destruct item as [|c [|t [|h [|w [|]]]]]; try discriminate.
  destruct (Torch.pool_out t _ _ _); cbn [bind]; [|discriminate].
  destruct (Torch.pool_out h _ _ _); cbn [bind]; [|discriminate].
  destruct (Torch.pool_out w _ _ _); cbn [bind]; [|discriminate].
  intros H. now injection H as <-.
Qed.

Lemma VideoSpatioEncoder_features_any_batch (input_shape : Z * Z * Z * Z)
  (n m : Z) (item : list Z) (out : shape) :
  VideoSpatioEncoder_features (VideoSpatioEncoder_init input_shape) (n :: item)
  = Ok out ->
  exists r,
    out = n :: r /\
    VideoSpatioEncoder_features (VideoSpatioEncoder_init input_shape)
      (m :: item) = Ok (m :: r).
Proof using Type.
  destruct input_shape as [[[c t] h] w].
  unfold VideoSpatioEncoder_features, VideoSpatioEncoder_init.
  cbn [vse_conv_block1 vse_conv_block2 vse_conv_block3 vse_conv_block4
       vse_pooling_block1 vse_pooling_block2 vse_pooling_block3].
  intros H.
  bind_step H y1 H1. bind_step H y2 H2. bind_step H y3 H3.
  bind_step H y4 H4. bind_step H y5 H5. bind_step H y6 H6.
  destruct (Conv3dResBlock_forward_batch _ _ _ _ H1) as (d1 & ->).
  destruct (MaxPool3d_batch _ _ _ _ _ _ H2) as (d2 & ->).
  destruct (Conv3dResBlock_forward_batch _ _ _ _ H3) as (d3 & ->).
  destruct (MaxPool3d_batch _ _ _ _ _ _ H4) as (d4 & ->).
  destruct (Conv3dResBlock_forward_batch _ _ _ _ H5) as (d5 & ->).
  destruct (MaxPool3d_batch _ _ _ _ _ _ H6) as (d6 & ->).
  destruct (Conv3dResBlock_forward_batch _ _ _ _ H) as (d7 & ->).
  exists d7. split; [reflexivity|].
  unfold Conv3dResBlock_forward in *.
  rewrite (batchwise_any_batch _ _ m _ _ H1). cbn [bind].
  rewrite (MaxPool3d_any_batch _ _ _ _ m _ _ H2). cbn [bind].
  rewrite (batchwise_any_batch _ _ m _ _ H3). cbn [bind].
  rewrite (MaxPool3d_any_batch _ _ _ _ m _ _ H4). cbn [bind].
  rewrite (batchwise_any_batch _ _ m _ _ H5). cbn [bind].
  rewrite (MaxPool3d_any_batch _ _ _ _ m _ _ H6). cbn [bind].
  exact (batchwise_any_batch _ _ m _ _ H).
Qed.

Lemma zeros_ok (s out : shape) : Torch.zeros s = Ok out -> out = s.
Proof using Type.
  unfold Torch.zeros. destruct (forallb _ _); [|discriminate].
  intros H. now injection H.
Qed.

Lemma with_batch_cons (n : Z) (input_shape : Z * Z * Z * Z) :
  with_batch n input_shape
  = n :: (let '(c, t, h, w) := input_shape in [c; t; h; w]).
Proof using Type. now destruct input_shape as [[[? ?] ?] ?]. Qed.

(** X3: [VideoSpatioEncoder.get_output_size] predicts the forward pass.
    For any configured [input_shape], if the probe of batch size 1 returns
    a size, that size is [(1, seq_len, f)], and for every batch size
    [N >= 1] the forward pass on an input of shape [(N, *input_shape)]
    returns [(N, seq_len, f)]. *)
Theorem VideoSpatioEncoder_get_output_size_predicts_forward
  (input_shape : Z * Z * Z * Z) (probe : shape) (N : Z) :
  let self := VideoSpatioEncoder_init input_shape in
  VideoSpatioEncoder_get_output_size self = Ok probe ->
  0 < N ->
  exists f,
    probe = [1; vse_seq_len self; f] /\
    VideoSpatioEncoder_forward self (with_batch N input_shape)
    = Ok [N; vse_seq_len self; f].
Proof using Type.
  intros self Hp HN. unfold VideoSpatioEncoder_get_output_size in Hp.
  assert (Hi : vse_input_shape self = input_shape)
    by (unfold self, VideoSpatioEncoder_init;
        now destruct input_shape as [[[? ?] ?] ?]).
  rewrite Hi in Hp. bind_step Hp sample Hs. apply zeros_ok in Hs. subst sample.
  rewrite with_batch_cons in *.
  unfold VideoSpatioEncoder_forward in *.
  bind_step Hp feats Hf.
  destruct (VideoSpatioEncoder_features_any_batch _ _ N _ _ Hf) as (r & -> & HfN).
  fold self in HfN. rewrite HfN.
  cbn [bind Torch.size nth_error] in *.
  apply view_three_full_inv in Hp. destruct Hp as (_ & Hseq & Hm & ->).
  rewrite Z.mul_1_l in *. rewrite numel_cons, Z.mul_1_l in *.
  exists (Torch.numel r / vse_seq_len self). split; [reflexivity|].
  rewrite view_three; try assumption.
  - rewrite numel_cons. rewrite Z.div_mul_cancel_l by lia. reflexivity.
  - rewrite numel_cons. rewrite Z.mul_mod_distr_l by lia. rewrite Hm. lia.
Qed.

(** X4: whatever [VideoSpatioEncoder.forward] returns is 3-dimensional
    with the batch size first and the configured [seq_len] second, also
    when the input has another number of frames, and it has as many elements
    as the output of the last convolution block. *)
Theorem VideoSpatioEncoder_forward_reshapes_to_seq_len
  (input_shape : Z * Z * Z * Z) (n : Z) (item : list Z) (out : shape) :
  let self := VideoSpatioEncoder_init input_shape in
  VideoSpatioEncoder_forward self (n :: item) = Ok out ->
  exists feats f,
    VideoSpatioEncoder_features self (n :: item) = Ok feats /\
    out = [n; vse_seq_len self; f] /\
    0 < n /\ 0 < vse_seq_len self /\
    Torch.numel out = Torch.numel feats.
Proof using Type.
  intros self H. unfold VideoSpatioEncoder_forward in H.
  bind_step H feats Hf.
  destruct (VideoSpatioEncoder_features_batch _ _ _ _ Hf) as (r & ->).
  cbn [bind Torch.size nth_error] in H.
  apply view_three_full_inv in H. destruct H as (Hn & Hseq & Hm & ->).
  exists (n :: r), (Torch.numel (n :: r) / (n * vse_seq_len self)).
  repeat split; try assumption.
  rewrite !numel_cons. unfold Torch.numel at 1. cbn [fold_right].
  rewrite Z.mul_1_r, Z.mul_assoc.
  rewrite <- numel_cons.
  apply Z.div_exact in Hm; [|nia]. rewrite <- Hm. reflexivity.
Qed.

(** ** The input sizes that [VideoSpatioEncoder] accepts *)

Lemma conv_out_3_2_1 (n : Z) :
  Torch.conv_out n 3 2 1 1 = if 1 <=? n then Ok ((n + 1) / 2)
                             else Err (RuntimeError OpConv3d).
Proof using Type.
  clear_unused.
  unfold Torch.conv_out. cbn [andb Z.ltb Z.leb Z.compare].
  change (0 <? 2) with true. change (0 <? 3) with true.
  change (0 <? 1) with true. change (0 <=? 1) with true. cbn [andb].
  destruct (Z.leb_spec (1 * (3 - 1) + 1) (n + 2 * 1));
    destruct (Z.leb_spec 1 n); try lia; [|reflexivity].
  f_equal. Z.div_mod_to_equations. lia.
Qed.



(** One block of [VideoSpatioEncoder] and the pooling after it, on the
    dimensions. *)
Lemma Conv3dResBlock_forward_3_2_1 (i o : Z) (bias down : bool)
  (n c t h w : Z) :
  Conv3dResBlock_forward (Build_Conv3dResBlock i o 3 2 1 1 bias down)
    [n; c; t; h; w]
  = if (c =? i) && (1 <=? t) && (1 <=? h) && (1 <=? w)
    then Ok [n; o; (t + 1) / 2; (h + 1) / 2; (w + 1) / 2]
    else Err (RuntimeError OpConv3d).
Proof using Type.
  unfold Conv3dResBlock_forward, batchwise, conv_item, Conv3dResBlock_dims.
  cbn [crb_in_channels crb_out_channels crb_kernel_size crb_stride
       crb_padding crb_dilation].
  rewrite !conv_out_3_2_1.
  destruct (c =? i); cbn [andb bind]; [|reflexivity].
  destruct (1 <=? t); cbn [andb bind]; [|reflexivity].
  destruct (1 <=? h); cbn [andb bind]; [|reflexivity].
  destruct (1 <=? w); reflexivity.
Qed.



(** ** Batch sizes at the edge *)

Lemma SITSBertSpatialEncoder_forward_inv (input_shape : Z * Z * Z * Z)
  (alpha : Z) (layers : list Z) (block : Block) (n : Z) (item : list Z)
  (out : shape) :
  let self := SITSBertSpatialEncoder_init input_shape alpha layers block in
  SITSBertSpatialEncoder_forward self (n :: item) = Ok out ->
  exists r,
    (forall m, ResNet50_forward (sse_resnet self) (m :: item) = Ok (m :: r)) /\
    0 < n /\ 0 < sse_seq_len self /\
    Torch.numel (n :: r) mod (n * sse_seq_len self) = 0 /\
    out = [n; sse_seq_len self; Torch.numel (n :: r) / (n * sse_seq_len self)].
Proof using Type.
  intros self. unfold SITSBertSpatialEncoder_forward. intros H.
  bind_step H y Hy.
  assert (Hr : sse_resnet self
               = ResNet50_init block layers alpha
                   (let '(c, _, _, _) := input_shape in c))
    by (unfold self; now destruct input_shape as [[[? ?] ?] ?]).
  rewrite Hr in *. apply ResNet50_forward_inv in Hy.
  destruct Hy as (r & -> & Hall).
  cbn [bind Torch.size nth_error] in H.
  apply view_three_full_inv in H. destruct H as (Hn & Hs & Hm & ->).
  exists r. auto.
Qed.

Lemma VideoSpatialEncoder_forward_pos (input_shape : Z * Z * Z * Z)
  (block : Block) (layers : list Z)
  (in_channels num_classes alpha slow t2s_mul : Z) (n : Z) (item : list Z)
  (out : shape) :
  VideoSpatialEncoder_forward
    (VideoSpatialEncoder_init input_shape block layers in_channels
       num_classes alpha slow t2s_mul) (n :: item) = Ok out ->
  0 < n.
Proof using Type.
  destruct input_shape as [[[c t] h] w].
  unfold VideoSpatialEncoder_forward, VideoSpatialEncoder_init.
  cbn [vsp_resnet vsp_seq_len]. intros H.
  bind_step H y0 H0. apply batchwise_batch in H0. destruct H0 as (? & ->).
  bind_step H y1 H1. apply batchwise_batch in H1. destruct H1 as (? & ->).
  bind_step H y2 H2. apply batchwise_batch in H2. destruct H2 as (? & ->).
  bind_step H y3 H3. apply batchwise_batch in H3. destruct H3 as (? & ->).
  bind_step H y4 H4. apply batchwise_batch in H4. destruct H4 as (? & ->).
  bind_step H y5 H5. apply batchwise_batch in H5. destruct H5 as (? & ->).
  bind_step H y6 H6. apply batchwise_batch in H6. destruct H6 as (? & ->).
  bind_step H y7 H7. apply batchwise_batch in H7. destruct H7 as (r7 & ->).
  bind_step H p Hp. unfold Torch.AdaptiveAvgPool3d_1 in Hp.
  destruct r7 as [|c7 [|t7 [|h7 [|w7 [|]]]]]; try discriminate.
  destruct (_ && _); [|discriminate]. injection Hp as <-.
  cbn [Torch.elementwise Torch.size nth_error bind] in H.
  now apply view_three_full_inv in H.
Qed.

(** X6: the forward passes that end in a reshape with an inferred size
    never return on an empty batch: [VideoSpatioEncoder], [R2Plus1DNet],
    [SITSBertSpatialEncoder], [VideoSpatialEncoder] and [MNIST_Net] fail on
    every input whose first dimension is 0. *)
Theorem reshaping_forwards_reject_empty_batch (item : list Z) :
  (forall input_shape,
     is_ok (VideoSpatioEncoder_forward (VideoSpatioEncoder_init input_shape)
              (0 :: item)) = false) /\
  (forall layer_sizes net,
     R2Plus1DNet_init layer_sizes = Ok net ->
     is_ok (R2Plus1DNet_forward net (0 :: item)) = false) /\
  (forall input_shape alpha layers block,
     is_ok (SITSBertSpatialEncoder_forward
              (SITSBertSpatialEncoder_init input_shape alpha layers block)
              (0 :: item)) = false) /\
  (forall input_shape block layers in_channels num_classes alpha slow t2s_mul,
     is_ok (VideoSpatialEncoder_forward
              (VideoSpatialEncoder_init input_shape block layers in_channels
                 num_classes alpha slow t2s_mul) (0 :: item)) = false) /\
  is_ok (MNIST_Net_forward (0 :: item)) = false.
Proof using Type.
  repeat match goal with |- _ /\ _ => split end.
  - intros input_shape.
    destruct (VideoSpatioEncoder_forward _ _) as [out|] eqn:E; [|reflexivity].
    exfalso. unfold VideoSpatioEncoder_forward in E. bind_step E y Hy.
    destruct (VideoSpatioEncoder_features_batch _ _ _ _ Hy) as (r & ->).
    cbn [bind Torch.size nth_error] in E.
    apply view_three_full_inv in E. lia.
  - intros layer_sizes net Hi.
    destruct (R2Plus1DNet_forward _ _) as [out|] eqn:E; [|reflexivity].
    exfalso. destruct (R2Plus1DNet_forward_inv _ _ _ _ _ Hi E). lia.
  - intros input_shape alpha layers block.
    destruct (SITSBertSpatialEncoder_forward _ _) as [out|] eqn:E;
      [|reflexivity].
    exfalso. apply SITSBertSpatialEncoder_forward_inv in E.
    destruct E as (r & _ & Hn & _). lia.
  - intros input_shape block layers in_channels num_classes alpha slow t2s_mul.
    destruct (VideoSpatialEncoder_forward _ _) as [out|] eqn:E; [|reflexivity].
    exfalso. apply VideoSpatialEncoder_forward_pos in E. lia.
  - destruct (MNIST_Net_forward _) as [out|] eqn:E; [|reflexivity].
    exfalso. unfold MNIST_Net_forward in E.
    cbn [Torch.size nth_error bind] in E.
    bind_step E y0 H0. bind_step E y1 H1. bind_step E y2 H2.
    bind_step E y3 H3. bind_step E y4 H4. bind_step E y5 H5.
    bind_step E y6 H6. bind_step E y7 H7. bind_step E y8 H8.
    apply view_two_inv in H8. lia.
Qed.

Lemma BatchNorm1d_single (c : Z) :
  Torch.BatchNorm1d c true [1; c] = Err (ValueError OpBatchNorm1d).
Proof using Type. reflexivity. Qed.

(** X7: a [R2Plus1DClassifier] whose constructor returned rejects a batch
    of one sample in training mode, the mode it is constructed in: the
    batch normalisation of the head fails with the framework's
    [ValueError].  In evaluation mode the same input gives
    [(1, num_classes)].  The constructor itself probes with one sample, but
    only through the encoder. *)
Theorem R2Plus1DClassifier_forward_single_sample
  (input_size : Z * Z * Z * Z) (num_classes : Z) (layer_sizes : list Z)
  (pretrained : bool) (g g' : G) (self : R2Plus1DClassifier)
  (printed : list Line) :
  R2Plus1DClassifier_init input_size num_classes layer_sizes pretrained g
  = Ok (self, g', printed) ->
  R2Plus1DClassifier_forward self true (with_batch 1 input_size)
  = Err (ValueError OpBatchNorm1d) /\
  R2Plus1DClassifier_forward self false (with_batch 1 input_size)
  = Ok [1; num_classes].
Proof using Type.
  intros H. apply R2Plus1DClassifier_init_inv in H.
  destruct H as (net & enc & head & g1 & _ & _ & Hp & _ & _ & ->).
  unfold R2Plus1DClassifier_forward. cbn [rc_res2plus1d rc_linear].
  change (R2Plus1DNet_forward
            {| r2_conv1 := r2_conv1 net; r2_conv2 := r2_conv2 net;
               r2_conv3 := r2_conv3 net; r2_conv4 := r2_conv4 net;
               r2_conv5 := r2_conv5 net; r2_pool := r2_pool net;
               r2_modules := enc |})
    with (R2Plus1DNet_forward net).
  rewrite Hp. cbn [bind]. split.
  - cbn [Sequential_forward seq_layer_forward]. rewrite Linear_two.
    cbn [bind]. now rewrite BatchNorm1d_single.
  - apply R2Plus1DClassifier_head. now left.
Qed.

(** X8: the head of [Unet3DClassifier] fits its encoder for every batch
    size.  When the constructor returns, the forward pass on an input of
    shape [(N, *input_shape)] returns [(N, num_classes)] for every
    [N >= 1], the probes of batch size 4 notwithstanding; only a single
    sample in training mode is refused, by the batch normalisation of the
    head. *)
Theorem Unet3DClassifier_head_matches_encoder (input_shape : Z * Z * Z * Z)
  (Unet3D_class feats mlp_hidden num_classes alpha : Z)
  (resnet_layers : list Z) (self : Unet3DClassifier) :
  Unet3DClassifier_init input_shape Unet3D_class feats mlp_hidden num_classes
    alpha resnet_layers = Ok self ->
  exists d,
    Unet3DClassifier_get_resnet_output input_shape (uc_spatio_encoder self)
      (uc_resnet self) = Ok [4; d] /\
    head_in_features (uc_classifier self) = Some d /\
    forall N training,
      (1 <= N -> training = false \/ N <> 1 ->
       Unet3DClassifier_forward self training (with_batch N input_shape)
       = Ok [N; num_classes]) /\
      (training = true -> N = 1 ->
       Unet3DClassifier_forward self training (with_batch N input_shape)
       = Err (ValueError OpBatchNorm1d)).
Proof using Type.
  intros H. unfold Unet3DClassifier_init in H.
  bind_step H e He. bind_step H c Hc. bind_step H o Ho.
  bind_step H d Hd. injection H as <-.
  cbn [uc_spatio_encoder uc_resnet uc_classifier head_in_features].
  pose proof Ho as Ho'.
  unfold Unet3DClassifier_get_resnet_output in Ho.
  bind_step Ho sample Hs. apply zeros_ok in Hs. subst sample.
  bind_step Ho y1 H1. bind_step Ho y2 H2.
  rewrite with_batch_cons in H1.
  destruct (batchwise_batch _ _ _ _ H1) as (e1 & ->).
  apply ResNet50_forward_inv in H2. destruct H2 as (e2 & -> & Hres).
  unfold Torch.flatten1 in Ho.
  destruct e2 as [|d2 e2]; [discriminate|]. injection Ho as <-.
  cbn in Hd. injection Hd as <-.
  exists (Torch.numel (d2 :: e2)). split; [exact Ho'|]. split; [reflexivity|].
  intros N training.
  assert (Hfw : forall ls,
    Unet3DClassifier_forward
      {| uc_spatio_encoder := batchwise (UNet3D_item 3 Unet3D_class feats);
         uc_input_shape := input_shape;
         uc_resnet := ResNet50_init Bottleneck2DPlus1D resnet_layers alpha c;
         uc_classifier := ls |} training (with_batch N input_shape)
    = Sequential_forward training ls [N; Torch.numel (d2 :: e2)]).
  { intros ls. unfold Unet3DClassifier_forward.
    cbn [uc_spatio_encoder uc_resnet uc_classifier].
    rewrite with_batch_cons.
    rewrite (batchwise_any_batch _ _ N _ _ H1). cbn [bind].
    rewrite Hres. cbn [bind Torch.flatten1]. reflexivity. }
  rewrite Hfw. cbn [Sequential_forward seq_layer_forward].
  rewrite Linear_two. cbn [bind]. split.
  - intros _ Ht. rewrite BatchNorm1d_two by assumption.
    cbn [bind Torch.elementwise]. now rewrite Linear_two.
  - intros -> ->. now rewrite BatchNorm1d_single.
Qed.

(** X9: the first convolution of [R2Plus1DNet] and of
    [VideoSpatioEncoder] is built for 3 channels whatever the configured
    input shape says.  With a channel count other than 3 in [input_size],
    the constructor of [R2Plus1DClassifier] does not return, and
    [VideoSpatioEncoder.get_output_size] fails. *)
Theorem three_channels_required (c t h w : Z) :
  c <> 3 ->
  (forall num_classes layer_sizes pretrained g,
     is_ok (R2Plus1DClassifier_init (c, t, h, w) num_classes layer_sizes
              pretrained g) = false) /\
  is_ok (VideoSpatioEncoder_get_output_size
           (VideoSpatioEncoder_init (c, t, h, w))) = false.
Proof using Type.
  intros Hc. split.
  - intros num_classes layer_sizes pretrained g.
    destruct (R2Plus1DClassifier_init _ _ _ _ _) as [[[self g'] printed]|] eqn:E;
      [|reflexivity].
    exfalso. apply R2Plus1DClassifier_init_inv in E.
    destruct E as (net & enc & head & g1 & Hnet & _ & Hp & _).
    unfold R2Plus1DNet_init in Hnet. bind_inv Hnet. injection Hnet as <-.
    unfold R2Plus1DNet_forward in Hp. cbn [r2_conv1 with_batch] in Hp.
    bind_step Hp b Hb. bind_step Hp y1 H1.
    apply Layer_forward_inv in H1.
    destruct H1 as (? & ? & ? & ? & ? & Hx & _). cbn [layer_in SpatioTemporalConv] in Hx.
    injection Hx as _ Hx _. contradiction.
  - destruct (VideoSpatioEncoder_get_output_size _) as [out|] eqn:E;
      [|reflexivity].
    exfalso. unfold VideoSpatioEncoder_get_output_size in E.
    bind_step E sample Hs. apply zeros_ok in Hs. subst sample.
    cbn [vse_input_shape VideoSpatioEncoder_init with_batch] in E.
    unfold VideoSpatioEncoder_forward, VideoSpatioEncoder_features in E.
    bind_step E y Hy. bind_step Hy y1 H1.
    cbn [vse_conv_block1 VideoSpatioEncoder_init] in H1.
    rewrite Conv3dResBlock_forward_3_2_1 in H1.
    destruct (Z.eqb_spec c 3); [contradiction|]. discriminate.
Qed.

(** X10: [R2Plus1DNet.__init__] reads exactly the first four entries of
    [layer_sizes]: with fewer than four it fails with the [IndexError] of
    the list, and with four or more the entries after the fourth make no
    difference. *)
Theorem R2Plus1DNet_init_layer_sizes (layer_sizes : list Z) :
  ((length layer_sizes < 4)%nat ->
   R2Plus1DNet_init layer_sizes = Err (IndexError OpGetItem)) /\
  ((4 <= length layer_sizes)%nat ->
   R2Plus1DNet_init layer_sizes = R2Plus1DNet_init (firstn 4 layer_sizes)).
Proof using Type.
  destruct layer_sizes as [|a [|b [|c [|d rest]]]]; cbn [length];
    (split; [intros H; try lia; reflexivity|intros H; try lia]).
  reflexivity.
Qed.

(** ** What the weight initialisation leaves alone *)

Lemma init_weight_module_frame (m : nnmodule R) :
  forall g m' g',
    init_weight_module R r0 r1 G kaiming_normal_ g m = Ok (m', g') ->
    Forall2
      (fun a b =>
         module_cls b = module_cls a /\
         (module_cls a = OtherModule ->
          module_weight b = module_weight a /\ module_bias b = module_bias a) /\
         (module_cls a = Conv3d -> module_bias b = module_bias a) /\
         (module_cls a = BatchNorm3d ->
          option_map (@length R) (module_weight b)
          = option_map (@length R) (module_weight a) /\
          option_map (@length R) (module_bias b)
          = option_map (@length R) (module_bias a)))
      (modules m) (modules m').
Proof using Type.
  induction m as [c w b ch IH] using nnmodule_ind_nested.
  intros g m' g' H. cbn [init_weight_module] in H.
  apply bind_ok in H. destruct H as ([[w' b'] g1] & Hstep & H).
  apply bind_ok in H. destruct H as ([ch' g2] & Hch & H).
  injection H as <- <-. cbn [modules]. constructor.
  - cbn [module_cls module_weight module_bias].
    split; [reflexivity|].
    unfold init_weight_step in Hstep. destruct c.
    + destruct w as [w0|]; [|discriminate].
      destruct (kaiming_normal_ g w0) as [w1 g3].
      injection Hstep as <- <- <-.
      repeat split; try discriminate; reflexivity.
    + destruct w as [w0|]; [|discriminate].
      destruct b as [b0|]; [|discriminate].
      injection Hstep as <- <- <-.
      repeat split; try discriminate; cbn [option_map]; unfold fill_;
        now rewrite length_map.
    + injection Hstep as <- <- <-. repeat split; try discriminate; reflexivity.
  - clear Hstep. revert g1 ch' g2 Hch.
    induction IH as [|x r Hx Hr IHr]; intros g1 ch' g2 Hch.
    + injection Hch as <- _. constructor.
    + apply bind_ok in Hch. destruct Hch as ([x' g3] & Hx' & Hch).
      apply bind_ok in Hch. destruct Hch as ([r' g4] & Hr' & Hch).
      injection Hch as <- _. cbn [flat_map].
      apply Forall2_app; [eapply Hx; eauto|eapply IHr; eauto].
Qed.

Lemma init_weight_children_frame (l : list (nnmodule R)) :
  forall g l' g',
    init_weight_children R r0 r1 G kaiming_normal_ g l = Ok (l', g') ->
    Forall2
      (fun a b =>
         module_cls b = module_cls a /\
         (module_cls a = OtherModule ->
          module_weight b = module_weight a /\ module_bias b = module_bias a) /\
         (module_cls a = Conv3d -> module_bias b = module_bias a) /\
         (module_cls a = BatchNorm3d ->
          option_map (@length R) (module_weight b)
          = option_map (@length R) (module_weight a) /\
          option_map (@length R) (module_bias b)
          = option_map (@length R) (module_bias a)))
      (flat_map modules l) (flat_map modules l').
Proof using Type.
  induction l as [|x r IH]; intros g l' g' H; cbn [init_weight_children] in H.
  - injection H as <- _. constructor.
  - apply bind_ok in H. destruct H as ([x' g1] & Hx & H).
    apply bind_ok in H. destruct H as ([r' g2] & Hr & H).
    injection H as <- _. cbn [flat_map]. apply Forall2_app.
    + eapply init_weight_module_frame; eauto.
    + eapply IH; eauto.
Qed.

(** X11: [R2Plus1DClassifier.__init_weight] changes nothing but the
    weights of the [Conv3d] modules and the weights and biases of the
    [BatchNorm3d] modules.  Module by module, in the order of
    [self.modules()], the class is kept; a module that is neither (the
    [Linear] and [BatchNorm1d] layers of the head among them) keeps its
    weight and bias; a [Conv3d] keeps its bias; a [BatchNorm3d] keeps the
    sizes of its weight and bias.  The shapes-related fields of the model
    are kept as well. *)
Theorem R2Plus1DClassifier_init_weight_frame (self self' : R2Plus1DClassifier)
  (g g' : G) :
  R2Plus1DClassifier_init_weight self g = Ok (self', g') ->
  Forall2
    (fun a b =>
       module_cls b = module_cls a /\
       (module_cls a = OtherModule ->
        module_weight b = module_weight a /\ module_bias b = module_bias a) /\
       (module_cls a = Conv3d -> module_bias b = module_bias a) /\
       (module_cls a = BatchNorm3d ->
        option_map (@length R) (module_weight b)
        = option_map (@length R) (module_weight a) /\
        option_map (@length R) (module_bias b)
        = option_map (@length R) (module_bias a)))
    (R2Plus1DClassifier_modules self) (R2Plus1DClassifier_modules self') /\
  rc_input_size self' = rc_input_size self /\
  rc_linear self' = rc_linear self /\
  R2Plus1DNet_forward (rc_res2plus1d self')
  = R2Plus1DNet_forward (rc_res2plus1d self).
Proof using Type.
  unfold R2Plus1DClassifier_init_weight. intros H.
  apply bind_ok in H. destruct H as ([enc g1] & Henc & H).
  apply bind_ok in H. destruct H as ([head g2] & Hhead & H).
  injection H as <- <-.
  cbn [rc_input_size rc_linear rc_res2plus1d].
  split; [|repeat split].
  unfold R2Plus1DClassifier_modules.
  cbn [rc_res2plus1d rc_linear_modules r2_modules modules flat_map].
  constructor.
  { cbn [module_cls module_weight module_bias]. repeat split; discriminate. }
  constructor.
  { cbn [module_cls module_weight module_bias]. repeat split; discriminate. }
  rewrite !app_nil_r. apply Forall2_app.
  - eapply init_weight_children_frame; eauto.
  - eapply init_weight_module_frame; eauto.
Qed.

Lemma init_weight_step_ok (g : G) (c : module_class)
  (w b : option (param R)) :
  is_ok (init_weight_step R r0 r1 G kaiming_normal_ g c w b) = true <->
  match c with
  | Conv3d => w <> None
  | BatchNorm3d => w <> None /\ b <> None
  | OtherModule => True
  end.
Proof using Type.
  unfold init_weight_step. destruct c.
  - destruct w as [w0|].
    + destruct (kaiming_normal_ g w0). split; [discriminate|reflexivity].
    + split; [discriminate|intros H; now contradiction H].
  - destruct w as [w0|], b as [b0|]; cbn [is_ok];
      (split; [try discriminate; intros _; split; discriminate
              |try reflexivity; intros [H1 H2]; try (now contradiction H1);
               now contradiction H2]).
  - split; [trivial|reflexivity].
Qed.

Lemma init_weight_module_ok (m : nnmodule R) :
  forall g,
    is_ok (init_weight_module R r0 r1 G kaiming_normal_ g m) = true <->
    Forall
      (fun a =>
         match module_cls a with
         | Conv3d => module_weight a <> None
         | BatchNorm3d => module_weight a <> None /\ module_bias a <> None
         | OtherModule => True
         end) (modules m).
Proof using Type.
  clear_unused.
  induction m as [c w b ch IH] using nnmodule_ind_nested.
  intros g. cbn [init_weight_module modules]. rewrite Forall_cons_iff.
  cbn [module_cls module_weight module_bias].
  rewrite <- (init_weight_step_ok g c w b).
  destruct (init_weight_step R r0 r1 G kaiming_normal_ g c w b)
    as [[[w' b'] g1]|e]; cbn [bind is_ok];
    [|split; [discriminate|intros [H _]; discriminate]].
  assert (Hch : forall g1,
    is_ok (init_weight_children R r0 r1 G kaiming_normal_ g1 ch) = true <->
    Forall
      (fun a =>
         match module_cls a with
         | Conv3d => module_weight a <> None
         | BatchNorm3d => module_weight a <> None /\ module_bias a <> None
         | OtherModule => True
         end) (flat_map modules ch)).
  { clear g g1 w' b'. induction IH as [|x r Hx Hr IHr]; intros g1.
    - cbn. split; [constructor|reflexivity].
    - cbn [init_weight_children flat_map]. rewrite Forall_app.
      rewrite <- (Hx g1).
      destruct (init_weight_module R r0 r1 G kaiming_normal_ g1 x)
        as [[x' g2]|e]; cbn [bind is_ok];
        [|split; [discriminate|intros [H _]; discriminate]].
      rewrite <- (IHr g2).
      destruct (init_weight_children R r0 r1 G kaiming_normal_ g2 r)
        as [[r' g3]|e]; cbn [bind is_ok]; tauto. }
  specialize (Hch g1). unfold init_weight_children in Hch.
  destruct ((fix go (g0 : G) (l : list (nnmodule R)) {struct l} :
               result (list (nnmodule R) * G) := _) g1 ch)
    as [[ch' g2]|e]; cbn [bind is_ok] in *; tauto.
Qed.

(** X12: [R2Plus1DClassifier.__init_weight] returns exactly when every
    [Conv3d] among the modules of the model has a weight and every
    [BatchNorm3d] has a weight and a bias; a batch normalisation without
    them (one built with [affine = False]) makes it fail. *)
Theorem R2Plus1DClassifier_init_weight_succeeds_iff
  (self : R2Plus1DClassifier) (g : G) :
  is_ok (R2Plus1DClassifier_init_weight self g) = true <->
  Forall
    (fun a =>
       match module_cls a with
       | Conv3d => module_weight a <> None
       | BatchNorm3d => module_weight a <> None /\ module_bias a <> None
       | OtherModule => True
       end) (R2Plus1DClassifier_modules self).
Proof using Type.
  clear_unused.
  assert (Hmods :
    Forall
      (fun a =>
         match module_cls a with
         | Conv3d => module_weight a <> None
         | BatchNorm3d => module_weight a <> None /\ module_bias a <> None
         | OtherModule => True
         end) (R2Plus1DClassifier_modules self) <->
    Forall
      (fun a =>
         match module_cls a with
         | Conv3d => module_weight a <> None
         | BatchNorm3d => module_weight a <> None /\ module_bias a <> None
         | OtherModule => True
         end) (flat_map modules (r2_modules (rc_res2plus1d self))) /\
    Forall
      (fun a =>
         match module_cls a with
         | Conv3d => module_weight a <> None
         | BatchNorm3d => module_weight a <> None /\ module_bias a <> None
         | OtherModule => True
         end) (modules (rc_linear_modules self))).
  { unfold R2Plus1DClassifier_modules.
    change (modules (NNModule OtherModule None None
              [NNModule OtherModule None None (r2_modules (rc_res2plus1d self));
               rc_linear_modules self]))
      with (NNModule OtherModule None None
              [NNModule OtherModule None None (r2_modules (rc_res2plus1d self));
               rc_linear_modules self]
            :: (NNModule OtherModule None None (r2_modules (rc_res2plus1d self))
                :: flat_map modules (r2_modules (rc_res2plus1d self)))
               ++ modules (rc_linear_modules self) ++ []).
    rewrite app_nil_r, Forall_cons_iff, <- app_comm_cons, Forall_cons_iff,
      Forall_app.
    cbn [module_cls]. tauto. }
  rewrite Hmods. clear Hmods.
  unfold R2Plus1DClassifier_init_weight.
  assert (Hch : forall g1 l,
    is_ok (init_weight_children R r0 r1 G kaiming_normal_ g1 l) = true <->
    Forall
      (fun a =>
         match module_cls a with
         | Conv3d => module_weight a <> None
         | BatchNorm3d => module_weight a <> None /\ module_bias a <> None
         | OtherModule => True
         end) (flat_map modules l)).
  { intros g1 l. revert g1. induction l as [|x r IHr]; intros g1.
    - cbn. split; [constructor|reflexivity].
    - cbn [init_weight_children flat_map]. rewrite Forall_app.
      rewrite <- (init_weight_module_ok x g1).
      destruct (init_weight_module R r0 r1 G kaiming_normal_ g1 x)
        as [[x' g2]|e]; cbn [bind is_ok];
        [|split; [discriminate|intros [H _]; discriminate]].
      rewrite <- (IHr g2).
      destruct (init_weight_children R r0 r1 G kaiming_normal_ g2 r)
        as [[r' g3]|e]; cbn [bind is_ok]; tauto. }
  rewrite <- (Hch g (r2_modules (rc_res2plus1d self))).
  destruct (init_weight_children R r0 r1 G kaiming_normal_ g
              (r2_modules (rc_res2plus1d self))) as [[enc g1]|e];
    cbn [bind is_ok]; [|split; [discriminate|intros [H _]; discriminate]].
  rewrite <- (init_weight_module_ok (rc_linear_modules self) g1).
  destruct (init_weight_module R r0 r1 G kaiming_normal_ g1
              (rc_linear_modules self)) as [[head g2]|e];
    cbn [bind is_ok]; tauto.
Qed.

(** ** The image sizes that [MNIST_Net] takes *)

Lemma conv_out_5 (n : Z) :
  Torch.conv_out n 5 1 0 1
  = if 5 <=? n then Ok (n - 4) else Err (RuntimeError OpConv3d).
Proof using Type.
  unfold Torch.conv_out.
  change (0 <? 1) with true. change (0 <? 5) with true.
  change (0 <=? 0) with true. cbn [andb].
  replace (1 * (5 - 1) + 1) with 5 by lia.
  replace (n + 2 * 0) with n by lia.
  destruct (Z.leb_spec 5 n); [|reflexivity].
  f_equal. rewrite Z.div_1_r. lia.
Qed.

Lemma pool_out_2 (n : Z) :
  Torch.pool_out n 2 2 0
  = if 2 <=? n then Ok (n / 2) else Err (RuntimeError OpMaxPool3d).
Proof using Type.
  clear_unused.
  unfold Torch.pool_out.
  change (0 <? 2) with true. change (0 <=? 0) with true.
  change (2 * 0 <=? 2) with true. cbn [andb].
  destruct (Z.leb_spec 1 ((n + 2 * 0 - (2 - 1) - 1) / 2 + 1));
    destruct (Z.leb_spec 2 n); try reflexivity.
  - f_equal. Z.div_mod_to_equations. lia.
  - exfalso. Z.div_mod_to_equations. lia.
  - exfalso. Z.div_mod_to_equations. lia.
Qed.

(** X13: [MNIST_Net.forward] is built for 28 x 28 images: [fc1] takes
    320 = 20 * 4 * 4 features.  For a batch of [n >= 1] square one-channel
    images that the spatial transformer hands on in their size, the
    forward pass returns exactly when the side is between 28 and 31, and
    then with one row of 10 class scores per image. *)
Theorem MNIST_Net_forward_square_sides (n s : Z) :
  SpatialTransformer_item [1; s; s] = Ok [1; s; s] ->
  1 <= n ->
  (28 <= s <= 31 -> MNIST_Net_forward [n; 1; s; s] = Ok [n; 10]) /\
  (is_ok (MNIST_Net_forward [n; 1; s; s]) = true -> 28 <= s <= 31).
Proof using Type.
  clear_unused.
  intros Hstn Hn.
  unfold MNIST_Net_forward.
  cbn [Torch.size nth_error bind batchwise]. rewrite Hstn. cbn [bind].
  unfold Torch.Conv2d. rewrite Z.eqb_refl, conv_out_5.
  destruct (Z.leb_spec 5 s) as [H5|H5]; cbn [bind is_ok];
    [|split; [lia|discriminate]].
  unfold Torch.max_pool2d. rewrite pool_out_2.
  destruct (Z.leb_spec 2 (s - 4)) as [H6|H6]; cbn [bind is_ok];
    [|split; [lia|discriminate]].
  unfold Torch.elementwise. cbn [bind].
  unfold Torch.Conv2d. rewrite Z.eqb_refl, conv_out_5.
  destruct (Z.leb_spec 5 ((s - 4) / 2)) as [H7|H7]; cbn [bind is_ok];
    [|split; [intros; exfalso; Z.div_mod_to_equations; lia|discriminate]].
  unfold Torch.max_pool2d. rewrite pool_out_2.
  destruct (Z.leb_spec 2 ((s - 4) / 2 - 4)) as [H8|H8]; cbn [bind is_ok];
    [|split; [intros; exfalso; Z.div_mod_to_equations; lia|discriminate]].
  set (q := ((s - 4) / 2 - 4) / 2).
  assert (Hq : 1 <= q) by (subst q; Z.div_mod_to_equations; lia).
  assert (Hnum : Torch.numel [n; 20; q; q] = n * (20 * q * q))
    by (unfold Torch.numel; cbn [fold_right]; lia).
  rewrite view_two; [|lia|rewrite Hnum, Z.mul_comm; apply Z.mod_mul; lia].
  cbn [bind]. rewrite Hnum.
  replace (n * (20 * q * q) / n) with (20 * q * q)
    by (rewrite (Z.mul_comm n), Z.div_mul; lia).
  change (Torch.Linear 320 50 [n; 20 * q * q])
    with (if 20 * q * q =? 320 then Ok [n; 50]
          else @Err shape (RuntimeError OpLinear)).
  destruct (Z.eqb_spec (20 * q * q) 320) as [E|E]; cbn [bind is_ok].
  - assert (q = 4) by nia.
    rewrite Linear_two. cbn [bind Torch.log_softmax1].
    split; [reflexivity|].
    intros _. subst q. Z.div_mod_to_equations. lia.
  - split; [|discriminate].
    intros Hs. exfalso. apply E.
    assert (q = 4) by (subst q; Z.div_mod_to_equations; lia). nia.
Qed.

(** ** Probes and pathways *)

(** X14: [SITSBertSpatialEncoder.get_output_size] probes with a batch of
    4.  If the probe returns a size, that size is [(4, seq_len, f)], and
    for every batch size [N >= 1] the forward pass on an input of shape
    [(N, *input_shape)] returns [(N, seq_len, f)]. *)
Theorem SITSBertSpatialEncoder_get_output_size_predicts_forward
  (input_shape : Z * Z * Z * Z) (alpha : Z) (layers : list Z) (block : Block)
  (probe : shape) (N : Z) :
  let self := SITSBertSpatialEncoder_init input_shape alpha layers block in
  SITSBertSpatialEncoder_get_output_size self = Ok probe ->
  0 < N ->
  exists f,
    probe = [4; sse_seq_len self; f] /\
    SITSBertSpatialEncoder_forward self (with_batch N input_shape)
    = Ok [N; sse_seq_len self; f].
Proof using Type.
  intros self Hp HN. unfold SITSBertSpatialEncoder_get_output_size in Hp.
  assert (Hi : sse_input_shape self = input_shape)
    by (unfold self, SITSBertSpatialEncoder_init;
        now destruct input_shape as [[[? ?] ?] ?]).
  rewrite Hi in Hp. bind_step Hp sample Hs. apply zeros_ok in Hs. subst sample.
  rewrite with_batch_cons in *.
  apply SITSBertSpatialEncoder_forward_inv in Hp.
  destruct Hp as (r & Hall & _ & Hseq & Hm & ->).
  fold self in Hall, Hseq, Hm |- *.
  rewrite numel_cons in *.
  rewrite Z.mul_mod_distr_l in Hm by lia.
  assert (Hm' : Torch.numel r mod sse_seq_len self = 0) by lia.
  exists (Torch.numel r / sse_seq_len self). split.
  - now rewrite Z.div_mul_cancel_l by lia.
  - unfold SITSBertSpatialEncoder_forward. rewrite Hall.
    cbn [bind Torch.size nth_error].
    rewrite view_three; try assumption.
    + rewrite numel_cons. rewrite Z.div_mul_cancel_l by lia. reflexivity.
    + rewrite numel_cons. rewrite Z.mul_mod_distr_l by lia. rewrite Hm'. lia.
Qed.

(** X15: the two pathways of [SlowFastEncoder.forward] on shapes.  When
    the forward pass returns on an input of shape [(n, c, t, h, w)], both
    strides are positive; the fast network has seen
    [ceil(t / tau_fast)] frames and the slow network
    [ceil(t / (tau_fast * alpha))] frames together with the laterals of
    the fast one; the two feature maps agree in every dimension but the
    channels, and the output has the channels of the slow features
    followed by those of the fast ones, [cs + cf] in all. *)
Theorem SlowFastEncoder_forward_channels_add (input_shape : Z * Z * Z * Z)
  (block : Block) (layers : list Z) (alpha tau_fast : Z)
  (base_bn_splits : option Z) (training : bool) (g g' : G)
  (n c t h w : Z) (out : shape) :
  let self :=
    shape_SlowFastEncoder_init input_shape block layers alpha tau_fast
      base_bn_splits in
  shape_SlowFastEncoder_forward self training g [n; c; t; h; w]
  = Ok (out, g') ->
  exists cf cs r lats,
    0 < tau_fast /\ 0 < alpha /\
    resnet50_f_item block layers alpha (sfe_in_channels self) 0 base_bn_splits
      [c; Torch.strided_len t tau_fast; h; w] = Ok (cf :: r, lats) /\
    resnet50_s_item block layers alpha (sfe_in_channels self) 1 base_bn_splits
      [c; Torch.strided_len t (tau_fast * alpha); h; w] lats = Ok (cs :: r) /\
    out = n :: (cs + cf) :: r.
Proof using Type.
  intros self.
  assert (Hself : self
    = {| sfe_input_shape := input_shape;
         sfe_seq_len := sfe_seq_len self;
         sfe_in_channels := sfe_in_channels self;
         sfe_alpha := alpha;
         sfe_tau_fast := tau_fast;
         sfe_slownet :=
           shape_resnet50_s block layers alpha (sfe_in_channels self) 1
             base_bn_splits;
         sfe_fastnet :=
           shape_resnet50_f block layers alpha (sfe_in_channels self) 0
             base_bn_splits;
         sfe_dropout := shape_dropout |}).
  { unfold self, shape_SlowFastEncoder_init, SlowFastEncoder_init.
    now destruct input_shape as [[[? ?] ?] ?]. }
  set (ci := sfe_in_channels self) in *. clearbody ci.
  set (sl := sfe_seq_len self) in *. clearbody sl.
  rewrite Hself. clear Hself.
  unfold shape_SlowFastEncoder_forward, SlowFastEncoder_forward,
    SlowFastEncoder_split_slow_fast.
  cbn [sfe_tau_fast sfe_alpha sfe_slownet sfe_fastnet sfe_dropout].
  unfold Torch.slice_time.
  destruct (Z.ltb_spec 0 (tau_fast * alpha)) as [Hts|]; [|discriminate].
  cbn [bind].
  destruct (Z.ltb_spec 0 tau_fast) as [Htf|]; [|discriminate].
  cbn [bind]. unfold shape_resnet50_f.
  destruct (resnet50_f_item _ _ _ _ _ _ _) as [[o lats]|] eqn:Ef;
    [|discriminate].
  cbn [bind]. unfold shape_resnet50_s. cbn [fst snd].
  rewrite lateral_items_cons. cbn [bind].
  destruct (resnet50_s_item _ _ _ _ _ _ _ _) as [os|] eqn:Eos; [|discriminate].
  cbn [bind]. unfold Torch.cat1.
  destruct os as [|cs rs]; [discriminate|].
  destruct o as [|cf rf]; [discriminate|].
  rewrite Z.eqb_refl. cbn [andb].
  destruct (list_eq_dec Z.eq_dec rs rf) as [Er|]; [|discriminate].
  cbn [bind]. unfold shape_dropout. intros H. injection H as <- <-.
  subst rf. exists cf, cs, rs, lats.
  repeat match goal with |- _ /\ _ => split end;
    try assumption; try reflexivity.
  nia.
Qed.

End Models.

(** * The models on concrete inputs *)

Local Abbreviation vse_default := (VideoSpatioEncoder_init default_input_shape).

Local Abbreviation r2_init :=
  (R2Plus1DNet_init Z Instance.SpatioTemporalConv_dims
     Instance.SpatioTemporalResLayer_dims Instance.SpatioTemporalConv_modules
     Instance.SpatioTemporalResLayer_modules).

Local Abbreviation rc_init :=
  (R2Plus1DClassifier_init Z 0 1 nat Instance.kaiming_normal_ nat
     Instance.SpatioTemporalConv_dims Instance.SpatioTemporalResLayer_dims
     Instance.SpatioTemporalConv_modules
     Instance.SpatioTemporalResLayer_modules Instance.Sequential_modules
     Instance.state_dict_lines).

Local Abbreviation sfe_frames :=
  (Build_SlowFastEncoder unit (tensor nat 5) default_input_shape 8 3 4 1
     (fun _ => Err (RuntimeError OpModule))
     (fun _ => Err (RuntimeError OpModule))
     (fun _ g x => (x, g))).




Lemma SlowFastEncoder_split_slow_fast_strides_witness :
  0 < sfe_tau_fast unit (tensor nat 5) sfe_frames /\
  0 < sfe_alpha unit (tensor nat 5) sfe_frames /\
  exists x_slow x_fast : tensor nat 5,
    SlowFastEncoder_split_slow_fast unit (tensor nat 5) tensor5_slice_time
      sfe_frames Instance.eight_frames = Ok (x_slow, x_fast) /\
    x_fast = Instance.eight_frames /\
    tensor5_frame x_slow 0 0 1 = tensor5_frame Instance.eight_frames 0 0 4.
Proof.
  split; [reflexivity|]. split; [reflexivity|].
  destruct (SlowFastEncoder_split_slow_fast_strides unit sfe_frames
              Instance.eight_frames)
    as (xs & xf & Hs & _ & _ & _ & _ & Hd); [reflexivity|reflexivity|].
  destruct Hd as [Hf Hfr]; [reflexivity|reflexivity|].
  exists xs, xf. split; [exact Hs|]. split; [exact Hf|]. exact (Hfr 0%nat 0%nat 1%nat).
Defined.

Local Abbreviation sfe_shapes :=
  (shape_SlowFastEncoder_init unit unit Instance.resnet50_f_item
     Instance.resnet50_s_item default_input_shape tt [3; 4; 6; 3] 4 1 None).

Lemma SlowFastEncoder_forward_fusion_order_witness :
  SlowFastEncoder_forward unit shape Torch.slice_time Torch.cat1 sfe_shapes
    true tt [2; 3; 8; 112; 112] = Ok ([2; 2304], tt).
Proof.
  apply (proj1 (SlowFastEncoder_forward_fusion_order unit shape
                  Torch.slice_time Torch.cat1 sfe_shapes true tt
                  [2; 3; 8; 112; 112])).
  exists [2; 3; 2; 112; 112], [2; 3; 8; 112; 112], [2; 256],
    [[2; 3; 8; 112; 112]], [2; 2048], [2; 2304].
  repeat split; reflexivity.
Defined.

Local Abbreviation sbert_shapes :=
  (Build_SBERTDisruptionClassifier shape vse_default
     (shape_SBERT Instance.SBERT_item 8 2304)
     (shape_MulticlassClassifier Instance.MulticlassClassifier_item 64 128 8 2)).

Lemma SBERTDisruptionClassifier_forward_fixed_doy_witness :
  SBERTDisruptionClassifier_forward shape (fun s => s)
    VideoSpatioEncoder_forward sbert_shapes [2; 3; 8; 112; 112] = Ok [2; 2] /\
  In (range1 8) (repeat (range1 8) 2) /\
  nth_error (range1 8) 3 = Some 4.
Proof.
  destruct (SBERTDisruptionClassifier_forward_fixed_doy shape (fun s => s)
              VideoSpatioEncoder_forward sbert_shapes [2; 3; 8; 112; 112])
    as (Hfwd & _ & Hdoy).
  split.
  - apply Hfwd. exists [2; 8; 2304], 2, [2; 8; 64].
    repeat split; reflexivity.
  - split; [left; reflexivity|].
    apply (Hdoy 2%nat (range1 8) 3%nat); [left; reflexivity|vm_compute; lia].
Defined.

Local Abbreviation unet_shapes :=
  (Build_Unet3DClassifier (batchwise (Instance.UNet3D_item 3 3 8))
     default_input_shape
     (ResNet50_init unit (fun _ _ _ _ _ => Instance.identity_item) tt
        [1; 2; 2; 1] 4 3)
     [SLinear 37632 128; SBatchNorm1d 128; SReLU; SLinear 128 2]).

Local Abbreviation layer_identity :=
  (Build_Layer 3 3 Instance.identity_item).

Local Abbreviation r2_identity :=
  (Build_R2Plus1DNet Z layer_identity layer_identity layer_identity
     layer_identity layer_identity Torch.AdaptiveAvgPool3d_1 []).

Local Abbreviation sdc_shapes :=
  (Build_SlowFastDisruptionClassifier unit shape default_input_shape None
     sfe_shapes
     [SLinear 2304 128; SBatchNorm1d 128; SReLU; SLinear 128 128;
      SBatchNorm1d 128; SReLU; SLinear 128 2]).



Lemma forward_preserves_batch_dimension_witness :
  exists net,
    r2_init [4; 4; 4; 4] = Ok net /\
    R2Plus1DNet_forward Z net [2; 3; 8; 112; 112] = Ok [2; 512] /\
    0 < 5 /\
    R2Plus1DNet_forward Z net [5; 3; 8; 112; 112] = Ok [5; 512].
Proof.
  destruct (r2_init [4; 4; 4; 4]) as [net|e] eqn:E;
    [|vm_compute in E; discriminate E].
  exists net. split; [reflexivity|].
  assert (H2 : R2Plus1DNet_forward Z net [2; 3; 8; 112; 112] = Ok [2; 512]).
  { vm_compute in E. injection E as <-. vm_compute. reflexivity. }
  split; [exact H2|]. split; [reflexivity|].
  destruct (forward_preserves_batch_dimension Z 0 1 nat
              Instance.kaiming_normal_ nat unit tt
              Instance.SpatioTemporalConv_dims
              Instance.SpatioTemporalResLayer_dims
              Instance.SpatioTemporalConv_modules
              Instance.SpatioTemporalResLayer_modules
              Instance.Sequential_modules Instance.state_dict_lines
              (fun _ _ _ _ _ => Instance.identity_item) Instance.UNet3D_item
              (fun _ _ _ _ _ _ _ _ => Instance.identity_item)
              Instance.identity_item
              Instance.resnet50_f_item Instance.resnet50_s_item
              Instance.SBERT_item Instance.MulticlassClassifier_item
              2 [3; 8; 112; 112] [2; 512]) as (Hr2 & _).
  destruct (Hr2 _ _ E) as (_ & Hany).
  apply Hany; [exact H2|reflexivity].
Defined.


(** ** The further properties on concrete inputs *)

Local Abbreviation sfe_negative :=
  (Build_SlowFastEncoder unit (tensor nat 5) default_input_shape 8 3 (-4) (-1)
     (fun _ => Err (RuntimeError OpModule))
     (fun _ => Err (RuntimeError OpModule))
     (fun _ g x => (x, g))).

Lemma SlowFastEncoder_split_slow_fast_succeeds_iff_witness :
  is_ok (SlowFastEncoder_split_slow_fast unit (tensor nat 5)
           tensor5_slice_time sfe_frames Instance.eight_frames) = true /\
  SlowFastEncoder_split_slow_fast unit (tensor nat 5) tensor5_slice_time
    sfe_negative Instance.eight_frames = Err (ValueError OpSlice).
Proof.
  split.
  - apply (proj2 (proj1 (SlowFastEncoder_split_slow_fast_succeeds_iff unit
                           sfe_frames Instance.eight_frames))).
    split; reflexivity.
  - apply (proj2 (SlowFastEncoder_split_slow_fast_succeeds_iff unit
                    sfe_negative Instance.eight_frames)).
    intros [H _]. discriminate H.
Defined.

Lemma SlowFastEncoder_split_slow_fast_frame_counts_witness :
  exists x_slow x_fast : tensor nat 5,
    SlowFastEncoder_split_slow_fast unit (tensor nat 5) tensor5_slice_time
      sfe_frames Instance.eight_frames = Ok (x_slow, x_fast) /\
    tensor5_frames x_fast 0 0 = Some 8%nat /\
    tensor5_frames x_slow 0 0 = Some 2%nat.
Proof.
  destruct (SlowFastEncoder_split_slow_fast unit (tensor nat 5)
              tensor5_slice_time sfe_frames Instance.eight_frames)
    as [[xs xf]|e] eqn:E; [|vm_compute in E; discriminate E].
  assert (Hk : tensor5_frames xf 0 0 = Some 8%nat)
    by (vm_compute in E; injection E as <- <-; reflexivity).
  exists xs, xf. split; [reflexivity|]. split; [exact Hk|].
  exact (proj1 (SlowFastEncoder_split_slow_fast_frame_counts unit
                  sfe_frames Instance.eight_frames xs xf 0%nat 0%nat 8%nat
                  E Hk)).
Defined.

Lemma VideoSpatioEncoder_get_output_size_predicts_forward_witness :
  VideoSpatioEncoder_get_output_size vse_default = Ok [1; 8; 2304] /\
  0 < 5 /\
  exists f,
    [1; 8; 2304] = [1; vse_seq_len vse_default; f] /\
    VideoSpatioEncoder_forward vse_default (with_batch 5 default_input_shape)
    = Ok [5; vse_seq_len vse_default; f].
Proof.
  split; [vm_compute; reflexivity|]. split; [reflexivity|].
  apply (VideoSpatioEncoder_get_output_size_predicts_forward
           default_input_shape [1; 8; 2304] 5);
    [vm_compute; reflexivity|reflexivity].
Defined.

Lemma VideoSpatioEncoder_forward_reshapes_to_seq_len_witness :
  VideoSpatioEncoder_forward vse_default [2; 3; 32; 112; 112]
  = Ok [2; 8; 4608] /\
  exists feats f,
    VideoSpatioEncoder_features vse_default [2; 3; 32; 112; 112] = Ok feats /\
    [2; 8; 4608] = [2; vse_seq_len vse_default; f] /\
    0 < 2 /\ 0 < vse_seq_len vse_default /\
    Torch.numel [2; 8; 4608] = Torch.numel feats.
Proof.
  split; [vm_compute; reflexivity|].
  apply (VideoSpatioEncoder_forward_reshapes_to_seq_len default_input_shape
           2 [3; 32; 112; 112] [2; 8; 4608]).
  vm_compute. reflexivity.
Defined.


Lemma reshaping_forwards_reject_empty_batch_witness :
  exists net,
    r2_init [4; 4; 4; 4] = Ok net /\
    is_ok (R2Plus1DNet_forward Z net [0; 3; 8; 112; 112]) = false.
Proof.
  destruct (r2_init [4; 4; 4; 4]) as [net|e] eqn:E;
    [|vm_compute in E; discriminate E].
  exists net. split; [reflexivity|].
  exact (proj1 (proj2 (reshaping_forwards_reject_empty_batch Z unit
                         Instance.SpatioTemporalConv_dims
                         Instance.SpatioTemporalResLayer_dims
                         Instance.SpatioTemporalConv_modules
                         Instance.SpatioTemporalResLayer_modules
                         (fun _ _ _ _ _ => Instance.identity_item)
                         (fun _ _ _ _ _ _ _ _ => Instance.identity_item)
                         Instance.identity_item [3; 8; 112; 112]))
           [4; 4; 4; 4] net E).
Defined.

Lemma R2Plus1DClassifier_forward_single_sample_witness :
  exists self g' printed,
    rc_init default_input_shape 2 [4; 4; 4; 4] false 0%nat
    = Ok (self, g', printed) /\
    R2Plus1DClassifier_forward Z self true (with_batch 1 default_input_shape)
    = Err (ValueError OpBatchNorm1d) /\
    R2Plus1DClassifier_forward Z self false (with_batch 1 default_input_shape)
    = Ok [1; 2].
Proof.
  destruct (rc_init default_input_shape 2 [4; 4; 4; 4] false 0%nat)
    as [[[self g'] printed]|e] eqn:E; [|vm_compute in E; discriminate E].
  exists self, g', printed. split; [reflexivity|].
  exact (R2Plus1DClassifier_forward_single_sample Z 0 1 nat
           Instance.kaiming_normal_ nat
           Instance.SpatioTemporalConv_dims
           Instance.SpatioTemporalResLayer_dims
           Instance.SpatioTemporalConv_modules
           Instance.SpatioTemporalResLayer_modules
           Instance.Sequential_modules Instance.state_dict_lines
           _ _ _ _ _ _ _ _ E).
Defined.

Local Abbreviation unet_init :=
  (Unet3DClassifier_init unit tt (fun _ _ _ _ _ => Instance.identity_item)
     Instance.UNet3D_item).

Lemma Unet3DClassifier_head_matches_encoder_witness :
  exists self,
    unet_init default_input_shape 3 8 128 2 4 [1; 2; 2; 1] = Ok self /\
    Unet3DClassifier_forward self true (with_batch 6 default_input_shape)
    = Ok [6; 2] /\
    Unet3DClassifier_forward self true (with_batch 1 default_input_shape)
    = Err (ValueError OpBatchNorm1d).
Proof.
  destruct (unet_init default_input_shape 3 8 128 2 4 [1; 2; 2; 1])
    as [self|e] eqn:E; [|vm_compute in E; discriminate E].
  exists self. split; [reflexivity|].
  destruct (Unet3DClassifier_head_matches_encoder unit tt
              (fun _ _ _ _ _ => Instance.identity_item) Instance.UNet3D_item
              _ _ _ _ _ _ _ _ E) as (d & _ & _ & Hall).
  split.
  - apply (proj1 (Hall 6 true)); [discriminate|]. right. discriminate.
  - apply (proj2 (Hall 1 true)); reflexivity.
Defined.

Lemma three_channels_required_witness :
  1 <> 3 /\
  is_ok (rc_init (1, 8, 112, 112) 2 [4; 4; 4; 4] false 0%nat) = false /\
  is_ok (VideoSpatioEncoder_get_output_size
           (VideoSpatioEncoder_init (1, 8, 112, 112))) = false.
Proof.
  assert (H : 1 <> 3) by discriminate.
  split; [exact H|].
  destruct (three_channels_required Z 0 1 nat Instance.kaiming_normal_ nat
              Instance.SpatioTemporalConv_dims
              Instance.SpatioTemporalResLayer_dims
              Instance.SpatioTemporalConv_modules
              Instance.SpatioTemporalResLayer_modules
              Instance.Sequential_modules Instance.state_dict_lines
              1 8 112 112 H) as [H1 H2].
  split; [apply H1|exact H2].
Defined.

Lemma R2Plus1DNet_init_layer_sizes_witness :
  r2_init [4; 4; 4] = Err (IndexError OpGetItem) /\
  r2_init [4; 4; 4; 4; 9] = r2_init (firstn 4 [4; 4; 4; 4; 9]).
Proof.
  split.
  - apply (proj1 (R2Plus1DNet_init_layer_sizes Z
                    Instance.SpatioTemporalConv_dims
                    Instance.SpatioTemporalResLayer_dims
                    Instance.SpatioTemporalConv_modules
                    Instance.SpatioTemporalResLayer_modules [4; 4; 4])).
    cbn [length]. lia.
  - apply (proj2 (R2Plus1DNet_init_layer_sizes Z
                    Instance.SpatioTemporalConv_dims
                    Instance.SpatioTemporalResLayer_dims
                    Instance.SpatioTemporalConv_modules
                    Instance.SpatioTemporalResLayer_modules [4; 4; 4; 4; 9])).
    cbn [length]. lia.
Defined.

Local Abbreviation rc_small :=
  (Build_R2Plus1DClassifier Z default_input_shape
     (Build_R2Plus1DNet Z layer_identity layer_identity layer_identity
        layer_identity layer_identity Torch.AdaptiveAvgPool3d_1
        [Instance.conv_bn])
     [SLinear 3 2]
     (NNModule OtherModule None None
        [NNModule OtherModule (Some [9; 9]) (Some [9]) []])).

Lemma R2Plus1DClassifier_init_weight_frame_witness :
  exists self' g',
    R2Plus1DClassifier_init_weight Z 0 1 nat Instance.kaiming_normal_
      rc_small 0%nat = Ok (self', g') /\
    rc_input_size Z self' = default_input_shape /\
    rc_linear Z self' = [SLinear 3 2].
Proof.
  destruct (R2Plus1DClassifier_init_weight Z 0 1 nat Instance.kaiming_normal_
              rc_small 0%nat) as [[self' g']|e] eqn:E;
    [|vm_compute in E; discriminate E].
  exists self', g'. split; [reflexivity|].
  destruct (R2Plus1DClassifier_init_weight_frame Z 0 1 nat
              Instance.kaiming_normal_ rc_small self' 0%nat g' E)
    as (_ & H1 & H2 & _).
  split; [exact H1|exact H2].
Defined.

Lemma MNIST_Net_forward_square_sides_witness :
  1 <= 2 /\
  MNIST_Net_forward Instance.identity_item [2; 1; 28; 28] = Ok [2; 10] /\
  MNIST_Net_forward Instance.identity_item [2; 1; 31; 31] = Ok [2; 10].
Proof.
  assert (H : 1 <= 2) by discriminate.
  split; [exact H|]. split.
  - apply (proj1 (MNIST_Net_forward_square_sides Instance.identity_item 2 28
                    eq_refl H)).
    split; discriminate.
  - apply (proj1 (MNIST_Net_forward_square_sides Instance.identity_item 2 31
                    eq_refl H)).
    split; discriminate.
Defined.

Local Abbreviation sse_identity :=
  (SITSBertSpatialEncoder_init unit (fun _ _ _ _ _ => Instance.identity_item)
     default_input_shape 4 [1; 2; 2; 1] tt).

Lemma SITSBertSpatialEncoder_get_output_size_predicts_forward_witness :
  SITSBertSpatialEncoder_get_output_size sse_identity = Ok [4; 8; 37632] /\
  0 < 2 /\
  exists f,
    [4; 8; 37632] = [4; sse_seq_len sse_identity; f] /\
    SITSBertSpatialEncoder_forward sse_identity
      (with_batch 2 default_input_shape)
    = Ok [2; sse_seq_len sse_identity; f].
Proof.
  split; [vm_compute; reflexivity|]. split; [reflexivity|].
  apply (SITSBertSpatialEncoder_get_output_size_predicts_forward unit
           (fun _ _ _ _ _ => Instance.identity_item) default_input_shape 4
           [1; 2; 2; 1] tt [4; 8; 37632] 2);
    [vm_compute; reflexivity|reflexivity].
Defined.

Lemma SlowFastEncoder_forward_channels_add_witness :
  shape_SlowFastEncoder_forward unit sfe_shapes true tt [2; 3; 8; 112; 112]
  = Ok ([2; 2304], tt) /\
  exists cf cs r, [2; 2304] = 2 :: cs + cf :: r.
Proof.
  assert (E : shape_SlowFastEncoder_forward unit sfe_shapes true tt
                [2; 3; 8; 112; 112] = Ok ([2; 2304], tt))
    by (vm_compute; reflexivity).
  split; [exact E|].
  destruct (SlowFastEncoder_forward_channels_add unit unit
              Instance.resnet50_f_item Instance.resnet50_s_item
              default_input_shape tt [3; 4; 6; 3] 4 1 None true tt tt
              2 3 8 112 112 [2; 2304] E)
    as (cf & cs & r & lats & _ & _ & _ & _ & H).
  exists cf, cs, r. exact H.
Defined.
